(** * The notification bot of the site backend (bot.py)

    A shallow embedding of [NotificationBot]: the recipient store
    ([authorized_users]), the authorization handler ([verify_user]), the
    broadcast ([send_message]) and password rotation ([update_password]),
    together with the part of the outside world these methods touch: the
    backing file [auth_users.json], the [.env] file, the HTTP transport of
    [requests.post], the replies sent through the chat API, and the log.

    Python integers are [Z], Python strings are [string] (their UTF-8
    bytes), the set of authorized chat ids is a [gset Z].  Methods run in a
    state-and-exception monad over the pair (bot object, world); what the
    outside world answers is read from an [environment]. *)

From Stdlib Require Import ZArith String Ascii.
From Stdlib Require Import DecimalString DecimalZ DecimalPos DecimalFacts.
From stdpp Require Import gmap strings list.

Local Open Scope Z_scope.

(** ** JSON text of a list of integers

    [_save_authorized_users] writes [json.dump(list(users), f)] and
    [_load_authorized_users] reads [set(json.load(f))].  The file holds
    text, so the codec is modelled on text: [json_dumps] prints what
    Python's encoder prints for a list of ints, and [json_loads] follows
    the decoder (whitespace, the array loop of [JSONArray], the integer
    part of [NUMBER_RE]) on documents that are arrays of integer literals.
    Any other text gives [None]. *)
Module Json.

(** [int.__repr__]: decimal digits, a leading minus for negatives.
    Integers are unbounded here; CPython's cap on the number of digits of
    an integer's text is not modelled. *)
Definition dump_int (z : Z) : string :=
  NilEmpty.string_of_int (Z.to_int z).

(** The encoder's list loop with the default item separator [", "]. *)
Fixpoint dump_items (l : list Z) : string :=
  match l with
  | [] => ""
  | [z] => dump_int z
  | z :: rest => dump_int z +:+ ", " +:+ dump_items rest
  end.

Definition json_dumps (l : list Z) : string :=
  "[" +:+ dump_items l +:+ "]".

(** JSON whitespace: space, tab, line feed, carriage return. *)
Definition is_ws (c : ascii) : bool :=
  (Ascii.eqb c " " || Ascii.eqb c "009" || Ascii.eqb c "010"
   || Ascii.eqb c "013")%char.

Fixpoint skip_ws (s : string) : string :=
  match s with
  | String c s' => if is_ws c then skip_ws s' else s
  | EmptyString => s
  end.

Definition is_digit (c : ascii) : bool :=
  match uint_of_char c (Some Decimal.Nil) with
  | Some _ => true
  | None => false
  end.

(** The longest run of decimal digits in front of [s], and what follows. *)
Fixpoint scan_digits (s : string) : Decimal.uint * string :=
  match s with
  | String c s' =>
      if is_digit c then
        let '(d, rest) := scan_digits s' in
        match uint_of_char c (Some d) with
        | Some d' => (d', rest)
        | None => (Decimal.Nil, s)
        end
      else (Decimal.Nil, s)
  | EmptyString => (Decimal.Nil, s)
  end.

(** The unsigned part of [NUMBER_RE]: a single [0], or a non-zero digit
    followed by digits. *)
Definition scan_nat (s : string) : option (Decimal.uint * string) :=
  match s with
  | String c s' =>
      if Ascii.eqb c "0" then Some (Decimal.D0 Decimal.Nil, s')
      else if is_digit c then Some (scan_digits s)
      else None
  | EmptyString => None
  end.

(** An integer literal: an optional minus, then [scan_nat]. *)
Definition scan_int (s : string) : option (Z * string) :=
  match s with
  | String c s' =>
      if Ascii.eqb c "-" then
        match scan_nat s' with
        | Some (d, rest) => Some (Z.of_int (Decimal.Neg d), rest)
        | None => None
        end
      else
        match scan_nat s with
        | Some (d, rest) => Some (Z.of_int (Decimal.Pos d), rest)
        | None => None
        end
  | EmptyString => None
  end.

(** The loop of [JSONArray] once the array is known to be non-empty: a
    value, whitespace, then ["]"] (done) or [","] and whitespace (next
    value).  [acc] holds the values read so far, last first. *)
Fixpoint scan_items (fuel : nat) (s : string) (acc : list Z)
  : option (list Z * string) :=
  match fuel with
  | O => None
  | S fuel' =>
      match scan_int s with
      | None => None
      | Some (z, rest) =>
          match skip_ws rest with
          | String c rest' =>
              if Ascii.eqb c "]" then Some (rev (z :: acc), rest')
              else if Ascii.eqb c "," then
                scan_items fuel' (skip_ws rest') (z :: acc)
              else None
          | EmptyString => None
          end
      end
  end.

(** After the closing bracket only whitespace may follow
    (the decoder's "Extra data" check). *)
Definition at_end (l : list Z) (rest : string) : option (list Z) :=
  match skip_ws rest with
  | EmptyString => Some l
  | String _ _ => None
  end.

Definition json_loads (s : string) : option (list Z) :=
  match skip_ws s with
  | String c s1 =>
      if Ascii.eqb c "[" then
        match skip_ws s1 with
        | String c2 rest =>
            if Ascii.eqb c2 "]" then at_end [] rest
            else
              match scan_items (String.length s1) (skip_ws s1) [] with
              | Some (l, rest') => at_end l rest'
              | None => None
              end
        | EmptyString => None
        end
      else None
  | EmptyString => None
  end.

(** [rest] does not continue a run of digits. *)
Definition no_digit_ahead (rest : string) : Prop :=
  match rest with
  | String c _ => is_digit c = false
  | EmptyString => True
  end.

(** What [dump_items] prints after the first item. *)
Fixpoint dump_tail (l : list Z) : string :=
  match l with
  | [] => ""
  | z :: rest => ", " +:+ dump_int z +:+ dump_tail rest
  end.

End Json.

(** ** The outside world *)

(** The operations on the outside world that can be refused: opening the
    backing file for reading or for writing, [os.remove] on it, [set_key]
    on the [.env] file, and [reply_text] on the chat API. *)
Inductive io_op := OpenRead | OpenWrite | Remove | SetKey | ReplyText.

#[export] Instance io_op_eq_dec : EqDecision io_op.
Proof. solve_decision. Defined.

(** Exceptions, all of them subclasses of Python's [Exception]. *)
Inductive exn :=
| ValueError (msg : string)
| OSError (op : io_op)
| FileNotFoundError
| JSONDecodeError
| RequestException (detail : string)
| TelegramError.

Inductive result (A : Type) :=
| Ok (a : A)
| Raise (e : exn).
Arguments Ok {A} a.
Arguments Raise {A} e.

(** [requests.post(url, json={"chat_id": ..., "text": ...}, timeout=5)]. *)
Record request := {
  url : string;
  json_chat_id : Z;
  json_text : string;
  timeout : Z
}.

Record response := {
  status_code : Z;
  text : string
}.

(** What one call of [requests.post] does: it returns a response or it
    raises (connection error, timeout, ...). *)
Inductive post_outcome :=
| Responded (r : response)
| Failed (detail : string).

Inductive level := INFO | WARNING | ERROR | CRITICAL.

(** The log records of bot.py, one constructor per [logger] call, with the
    values its f-string interpolates. *)
Inductive log_msg :=
| LoadUsersFailed (e : exn)
| SaveUsersFailed (e : exn)
| UserAuthorized (chat_id : Z)
| LoginFailed (chat_id : Z)
| StartReceived (chat_id : Z)
| SendWithoutUsers
| MessageSent (chat_id : Z)
| SendRejected (chat_id : Z) (body : string)
| SendRaised (chat_id : Z) (e : exn)
| RemoveAuthFileFailed (e : exn)
| PasswordUpdated.

Record world := {
  (** text of auth_users.json, [None] when the path does not exist *)
  auth_file : option string;
  (** the keys of the .env file *)
  env_file : gmap string string;
  (** the calls of [requests.post] so far with their outcomes, oldest first *)
  posts : list (request * post_outcome);
  (** the calls of [reply_text] so far (chat, text), oldest first *)
  replies : list (Z * string);
  (** the operations of [io_op] attempted so far, oldest first *)
  attempts : list io_op;
  (** the log, oldest first *)
  log : list (level * log_msg)
}.

(** What the outside world answers while one method runs: the outcome of
    an HTTP call, which may depend on the calls made before it, and which
    operations are refused.  Properties about two methods in a row take
    one environment for each. *)
Record environment := {
  http_post : list (request * post_outcome) → request → post_outcome;
  refuses : io_op → bool
}.

Definition set_auth_file (f : option string) (w : world) : world :=
  {| auth_file := f; env_file := env_file w; posts := posts w;
     replies := replies w; attempts := attempts w; log := log w |}.

Definition set_env_file (m : gmap string string) (w : world) : world :=
  {| auth_file := auth_file w; env_file := m; posts := posts w;
     replies := replies w; attempts := attempts w; log := log w |}.

Definition add_post (p : request * post_outcome) (w : world) : world :=
  {| auth_file := auth_file w; env_file := env_file w;
     posts := posts w ++ [p]; replies := replies w;
     attempts := attempts w; log := log w |}.

Definition add_reply (r : Z * string) (w : world) : world :=
  {| auth_file := auth_file w; env_file := env_file w; posts := posts w;
     replies := replies w ++ [r]; attempts := attempts w; log := log w |}.

Definition add_attempt (op : io_op) (w : world) : world :=
  {| auth_file := auth_file w; env_file := env_file w; posts := posts w;
     replies := replies w; attempts := attempts w ++ [op]; log := log w |}.

Definition add_log (l : level * log_msg) (w : world) : world :=
  {| auth_file := auth_file w; env_file := env_file w; posts := posts w;
     replies := replies w; attempts := attempts w; log := log w ++ [l] |}.

(** ** The bot object *)

Record NotificationBot := {
  token : string;
  _password : string;
  admin_chat_id : Z;
  authorized_users : gset Z
}.

Definition set_password (p : string) (b : NotificationBot) : NotificationBot :=
  {| token := token b; _password := p; admin_chat_id := admin_chat_id b;
     authorized_users := authorized_users b |}.

Definition set_authorized_users (s : gset Z) (b : NotificationBot)
  : NotificationBot :=
  {| token := token b; _password := _password b;
     admin_chat_id := admin_chat_id b; authorized_users := s |}.

(** The part of a telegram [Update] the handlers read:
    [update.message.chat.id] and [update.message.text]. *)
Record Update := {
  message_chat_id : Z;
  message_text : option string
}.

(** ** The monad of methods: state (bot, world), exceptions, environment *)

Definition state : Type := NotificationBot * world.

Definition M (A : Type) : Type := environment → state → result A * state.

#[export] Instance M_ret : MRet M := λ A a _ st, (Ok a, st).

#[export] Instance M_bind : MBind M := λ A B f m E st,
  match m E st with
  | (Ok a, st') => f a E st'
  | (Raise e, st') => (Raise e, st')
  end.

Definition raise {A} (e : exn) : M A := λ _ st, (Raise e, st).

(** [try: body / except Exception as e: handler e]. *)
Definition try_except {A} (body : M A) (handler : exn → M A) : M A :=
  λ E st,
    match body E st with
    | (Ok a, st') => (Ok a, st')
    | (Raise e, st') => handler e E st'
    end.

Definition get_self : M NotificationBot := λ _ st, (Ok st.1, st).

Definition set_attr (f : NotificationBot → NotificationBot) : M unit :=
  λ _ st, (Ok (), (f st.1, st.2)).

Definition get_world : M world := λ _ st, (Ok st.2, st).

Definition set_world (f : world → world) : M unit :=
  λ _ st, (Ok (), (st.1, f st.2)).

(** An operation on the outside world is attempted: the attempt is
    recorded, and the environment says whether it is refused. *)
Definition refused (op : io_op) : M bool :=
  λ E st, (Ok (refuses E op), (st.1, add_attempt op st.2)).

Definition logger (lv : level) (m : log_msg) : M unit :=
  set_world (add_log (lv, m)).

(** [os.path.exists(self._auth_file)]. *)
Definition os_path_exists : M bool :=
  w ← get_world; mret (bool_decide (is_Some (auth_file w))).

(** [open(self._auth_file, "r")] and reading the text. *)
Definition open_read : M string :=
  no ← refused OpenRead;
  if no : bool then raise (OSError OpenRead)
  else
    w ← get_world;
    match auth_file w with
    | Some s => mret s
    | None => raise FileNotFoundError
    end.

(** [open(self._auth_file, "w")] and writing [content]; a refused open
    leaves the file as it was. *)
Definition open_write (content : string) : M unit :=
  no ← refused OpenWrite;
  if no : bool then raise (OSError OpenWrite)
  else set_world (set_auth_file (Some content)).

(** [os.remove(self._auth_file)]. *)
Definition os_remove : M unit :=
  no ← refused Remove;
  if no : bool then raise (OSError Remove)
  else
    w ← get_world;
    match auth_file w with
    | Some _ => set_world (set_auth_file None)
    | None => raise FileNotFoundError
    end.

(** [set_key(self._env_path, key, value)] of python-dotenv: the key is
    written, or the call raises and the file stays as it was. *)
Definition set_key (key value : string) : M unit :=
  no ← refused SetKey;
  if no : bool then raise (OSError SetKey)
  else set_world (λ w, set_env_file (<[key := value]> (env_file w)) w).

(** [await update.message.reply_text(msg)]: the call is recorded, then the
    chat API may fail. *)
Definition reply_text (chat_id : Z) (msg : string) : M unit :=
  set_world (add_reply (chat_id, msg));;
  no ← refused ReplyText;
  if no : bool then raise TelegramError else mret ().

(** [requests.post(...)]: the outcome comes from the environment and is
    recorded with the request. *)
Definition requests_post (req : request) : M response :=
  λ E st,
    let out := http_post E (posts st.2) req in
    let st' := (st.1, add_post (req, out) st.2) in
    match out with
    | Responded r => (Ok r, st')
    | Failed detail => (Raise (RequestException detail), st')
    end.

(** [json.load(f)] on the text of the file, for the documents the program
    itself writes: arrays of integer literals.  The store is declared
    [Set[int]] and is a [gset Z] here, so any other document is sent to
    the [except] branch.  For undecodable text that is what Python does.
    For valid JSON of another shape it is not: [set(json.load(f))] of an
    array of strings, say, returns a set of strings without logging, a
    value that the store of this model cannot hold.  The properties below
    that read the result of a load do so for a file that is absent, that
    cannot be opened, or that holds [Json.json_dumps] of a list. *)
Definition json_load (s : string) : M (list Z) :=
  match Json.json_loads s with
  | Some l => mret l
  | None => raise JSONDecodeError
  end.

(** ** The methods of [NotificationBot] *)

(** The three replies of [verify_user]: access denied, access granted,
    invalid password; and the prompt of [start]. *)
Definition MSG_ACCESS_DENIED : string := "❌ Доступ запрещен".
Definition MSG_ACCESS_GRANTED : string := "🔐 Доступ разрешен".
Definition MSG_INVALID_PASSWORD : string := "❌ Неверный пароль".
Definition MSG_ENTER_PASSWORD : string := "🔑 Введите пароль для доступа:".

(** [try: if exists: with open(...) as f: return set(json.load(f))
     except Exception as e: logger.error(...)
     return set()].
    The [try] block yields [Some s] when it returned [s], and [None] when
    it fell through. *)
Definition _load_authorized_users : M (gset Z) :=
  returned ← try_except
    (present ← os_path_exists;
     if present : bool then
       s ← open_read;
       l ← json_load s;
       mret (Some (list_to_set l))
     else mret None)
    (λ e, logger ERROR (LoadUsersFailed e);; mret None);
  match returned with
  | Some s => mret s
  | None => mret ∅
  end.

(** [try: with open(..., "w") as f: json.dump(list(self.authorized_users), f)
     except Exception as e: logger.error(...)]. *)
Definition _save_authorized_users : M unit :=
  try_except
    (b ← get_self;
     open_write (Json.json_dumps (elements (authorized_users b))))
    (λ e, logger ERROR (SaveUsersFailed e)).

(** Lines 86-87 of [verify_user], which the specification calls
    [add(identity)]:
    [self.authorized_users.add(chat_id); self._save_authorized_users()]. *)
Definition add (chat_id : Z) : M unit :=
  set_attr (λ b, set_authorized_users ({[chat_id]} ∪ authorized_users b) b);;
  _save_authorized_users.

(** [isinstance(update.message.text, str) and
     update.message.text == self._password]. *)
Definition is_password (t : option string) (b : NotificationBot) : bool :=
  match t with
  | Some s => bool_decide (s = _password b)
  | None => false
  end.

Definition verify_user (update : Update) : M unit :=
  let chat_id := message_chat_id update in
  b ← get_self;
  if bool_decide (chat_id ≠ admin_chat_id b) then
    reply_text chat_id MSG_ACCESS_DENIED
  else if is_password (message_text update) b then
    add chat_id;;
    reply_text chat_id MSG_ACCESS_GRANTED;;
    logger INFO (UserAuthorized chat_id)
  else
    reply_text chat_id MSG_INVALID_PASSWORD;;
    logger WARNING (LoginFailed chat_id).

Definition start (update : Update) : M unit :=
  reply_text (message_chat_id update) MSG_ENTER_PASSWORD;;
  logger INFO (StartReceived (message_chat_id update)).

(** The request of one iteration of [send_message]. *)
Definition sendMessage_request (token : string) (chat_id : Z)
    (message_text : string) : request :=
  {| url := "https://api.telegram.org/bot" +:+ token +:+ "/sendMessage";
     json_chat_id := chat_id; json_text := message_text; timeout := 5 |}.

(** One iteration of the loop of [send_message]; it returns the new value
    of [success]. *)
Definition send_one (message_text : string) (success : bool) (chat_id : Z)
  : M bool :=
  try_except
    (b ← get_self;
     response ← requests_post
       (sendMessage_request (token b) chat_id message_text);
     if bool_decide (status_code response = 200) then
       logger INFO (MessageSent chat_id);; mret true
     else
       logger ERROR (SendRejected chat_id (text response));; mret success)
    (λ e, logger ERROR (SendRaised chat_id e);; mret success).

(** [for chat_id in chats: ...], threading [success]. *)
Fixpoint send_loop (message_text : string) (chats : list Z) (success : bool)
  : M bool :=
  match chats with
  | [] => mret success
  | chat_id :: rest =>
      success' ← send_one message_text success chat_id;
      send_loop message_text rest success'
  end.

(** The set is iterated in the order of [elements]; nothing proved below
    depends on which order that is. *)
Definition send_message (message_text : string) : M bool :=
  b ← get_self;
  if bool_decide (authorized_users b = ∅) then
    logger WARNING SendWithoutUsers;; mret false
  else
    send_loop message_text (elements (authorized_users b)) false.

Definition update_password (new_password : string) : M unit :=
  set_attr (set_password new_password);;
  set_attr (set_authorized_users ∅);;
  try_except
    (present ← os_path_exists;
     if present : bool then os_remove else mret ())
    (λ e, logger ERROR (RemoveAuthFileFailed e));;
  set_key "TELEGRAM_BOT_PASSWORD" new_password;;
  logger INFO PasswordUpdated.

(** The constructor.  [token] and [password] are strings and
    [admin_chat_id] an integer by their types, so of the three checks the
    emptiness tests remain.  The new object's store is what
    [_load_authorized_users] reads. *)
Definition __init__ (token password : string) (admin_chat_id : Z)
    (E : environment) (w : world) : result NotificationBot * world :=
  if bool_decide (token = "") then
    (Raise (ValueError "Неверный токен бота"), w)
  else if bool_decide (password = "") then
    (Raise (ValueError "Неверный пароль"), w)
  else
    let b0 := {| token := token; _password := password;
                 admin_chat_id := admin_chat_id; authorized_users := ∅ |} in
    match _load_authorized_users E (b0, w) with
    | (Ok users, (b, w')) => (Ok (set_authorized_users users b), w')
    | (Raise e, (_, w')) => (Raise e, w')
    end.

(** Running a method: its result, and the bot and the world after it. *)
Definition outcome {A} (r : result A * state) : result A := r.1.
Definition bot_after {A} (r : result A * state) : NotificationBot := r.2.1.
Definition world_after {A} (r : result A * state) : world := r.2.2.

(** ** Vocabulary of the properties *)

(** The bot a construction returned, if it returned one. *)
Definition outcome_of_init (r : result NotificationBot * world)
  : option NotificationBot :=
  match r.1 with
  | Ok b => Some b
  | Raise _ => None
  end.

(** A call of [requests.post] succeeded: a response came back and its
    status code is 200. *)
Definition delivered (out : post_outcome) : bool :=
  match out with
  | Responded r => bool_decide (status_code r = 200)
  | Failed _ => false
  end.

(** The log record one iteration of [send_message] writes for an outcome. *)
Definition send_log (chat_id : Z) (out : post_outcome) : level * log_msg :=
  match out with
  | Responded r =>
      if bool_decide (status_code r = 200) then (INFO, MessageSent chat_id)
      else (ERROR, SendRejected chat_id (text r))
  | Failed detail => (ERROR, SendRaised chat_id (RequestException detail))
  end.

(** The calls a broadcast to [chats] makes, with the outcomes the
    environment gives them, when [history] holds the calls made before. *)
Fixpoint transcript (E : environment) (token message_text : string)
    (history : list (request * post_outcome)) (chats : list Z)
  : list (request * post_outcome) :=
  match chats with
  | [] => []
  | chat_id :: rest =>
      let req := sendMessage_request token chat_id message_text in
      let p := (req, http_post E history req) in
      p :: transcript E token message_text (history ++ [p]) rest
  end.

(** The world after [_save_authorized_users] has run on the store
    [users]: the write is attempted; when it is refused the failure is
    logged and the file stays as it was. *)
Definition saved (E : environment) (users : gset Z) (w : world) : world :=
  if refuses E OpenWrite then
    add_log (ERROR, SaveUsersFailed (OSError OpenWrite))
      (add_attempt OpenWrite w)
  else
    set_auth_file (Some (Json.json_dumps (elements users)))
      (add_attempt OpenWrite w).

(** The world after the [try] block of [update_password]: an existing
    backing file is removed, or the refusal is logged. *)
Definition removed (E : environment) (w : world) : world :=
  match auth_file w with
  | Some _ =>
      if refuses E Remove then
        add_log (ERROR, RemoveAuthFileFailed (OSError Remove))
          (add_attempt Remove w)
      else set_auth_file None (add_attempt Remove w)
  | None => w
  end.

(** The world after one [reply_text]. *)
Definition replied (chat_id : Z) (msg : string) (w : world) : world :=
  add_attempt ReplyText (add_reply (chat_id, msg) w).

(** An inbound text message. *)
Definition text_from (chat_id : Z) (t : string) : Update :=
  {| message_chat_id := chat_id; message_text := Some t |}.

(** ** Concrete bots, worlds and environments for the examples *)

(** A fresh world: no backing file, an empty .env, nothing sent or logged. *)
Definition fresh_world : world :=
  {| auth_file := None; env_file := ∅; posts := []; replies := [];
     attempts := []; log := [] |}.

(** A world whose backing file holds the recipients 1, 2 and 3. *)
Definition seeded_world : world :=
  set_auth_file (Some "[1, 2, 3]") fresh_world.

(** A transport that delivers to chat 2 only: chat 3 times out, every
    other chat is answered 403. *)
Definition mixed_transport (history : list (request * post_outcome))
    (req : request) : post_outcome :=
  if bool_decide (json_chat_id req = 2) then
    Responded {| status_code := 200; text := "ok" |}
  else if bool_decide (json_chat_id req = 3) then Failed "timeout"
  else Responded {| status_code := 403; text := "forbidden" |}.

(** A transport on which every call fails. *)
Definition dead_transport (history : list (request * post_outcome))
    (req : request) : post_outcome :=
  if bool_decide (json_chat_id req = 3) then Failed "timeout"
  else Responded {| status_code := 500; text := "error" |}.

(** An environment that refuses nothing. *)
Definition calm : environment :=
  {| http_post := mixed_transport; refuses := λ _, false |}.

(** An environment that refuses exactly the operation [op]. *)
Definition refusing (op : io_op) : environment :=
  {| http_post := mixed_transport;
     refuses := λ o, bool_decide (o = op) |}.

Definition dead : environment :=
  {| http_post := dead_transport; refuses := λ _, false |}.

(** The administrator is chat 2, the secret is "hunter2". *)
Definition bot_with (users : gset Z) : NotificationBot :=
  {| token := "T0K3N"; _password := "hunter2"; admin_chat_id := 2;
     authorized_users := users |}.

(** ** Calls into the bot, one after the other *)

(** What reaches the bot from outside: an update for one of the two
    handlers registered in [_run_bot], or a call of one of the two public
    operations by the web layer. *)
Inductive call :=
| Start (update : Update)
| VerifyUser (update : Update)
| SendMessage (message_text : string)
| UpdatePassword (new_password : string).

(** The bot and the world after one call.  An exception ends the call (the
    dispatcher, or the route that called, handles it); what the call did
    before raising stays done. *)
Definition after_call (c : call) (E : environment) (st : state) : state :=
  match c with
  | Start update => (start update E st).2
  | VerifyUser update => (verify_user update E st).2
  | SendMessage message_text => (send_message message_text E st).2
  | UpdatePassword new_password => (update_password new_password E st).2
  end.

(** A sequence of calls, each under its own environment. *)
Fixpoint after_calls (cs : list (environment * call)) (st : state) : state :=
  match cs with
  | [] => st
  | (E, c) :: rest => after_calls rest (after_call c E st)
  end.

(** ** The route [/admin/update_password] of server.py *)

(** The four answers of [update_bot_password]. *)
Inductive admin_answer :=
| Unauthorized
| InvalidData
| PasswordChanged
| ServerError (e : exn).

(** The HTTP status that goes with each answer (a returned dict is 200). *)
Definition http_status (a : admin_answer) : Z :=
  match a with
  | Unauthorized => 401
  | InvalidData => 400
  | PasswordChanged => 200
  | ServerError _ => 500
  end.

(** [update_bot_password].  [auth_header] is
    [request.headers.get("Authorization")].  [json] is the value
    [request.json] returns at line 222: [None] when the body is the JSON
    [null], or a JSON object, here with string values.  A request for
    which [request.json] itself raises (a body that is not JSON) is
    answered by the framework and never gets past that line; such
    requests, and bodies of other JSON types, are not values of [json].
    [not request.json] holds for [None] and for the empty object. *)
Definition update_bot_password (SECRET_KEY : string)
    (auth_header : option string) (json : option (gmap string string))
  : M admin_answer :=
  if bool_decide (auth_header ≠ Some SECRET_KEY) then mret Unauthorized
  else
    match json with
    | None => mret InvalidData
    | Some body =>
        if bool_decide (body = ∅) then mret InvalidData
        else
          match body !! "new_password"%string with
          | None => mret InvalidData
          | Some new_password =>
              try_except
                (update_password new_password;; mret PasswordChanged)
                (λ e, mret (ServerError e))
          end
    end.

(** ** The form helpers of server.py *)

(** A Python [str] whose characters are looked at one by one is the list
    of its code points, a [list Z]. *)

Section FormHelpers.

(** [str.isdigit] on one character, and [str.lower], as Python has them. *)
Context (isdigit : Z → bool) (lower : list Z → list Z).

(** ["".join(filter(str.isdigit, phone))[-10:]]. *)
Definition validate_phone (phone : list Z) : list Z :=
  let digits := filter (λ c, isdigit c) phone in
  drop (length digits - 10) digits.

(** [f"+7 ({phone[:3]}) {phone[3:6]}-{phone[6:8]}-{phone[8:]}"]; the
    literal characters are [+] 43, [7] 55, space 32, [(] 40, [)] 41 and
    [-] 45. *)
Definition format_phone (phone : list Z) : list Z :=
  [43; 55; 32; 40] ++ take 3 phone ++ [41; 32] ++ take 3 (drop 3 phone)
  ++ [45] ++ take 2 (drop 6 phone) ++ [45] ++ drop 8 phone.

(** [phone.isdigit()] on a whole string: not empty, and every character a
    digit; with the length test it is the phone check of [submit_order]
    (line 246), here as the condition under which the order goes on. *)
Definition order_phone_ok (phone : list Z) : bool :=
  bool_decide (length phone = 10%nat)
  && bool_decide (phone ≠ []) && forallb isdigit phone.

(** The keys of [ERROR_MESSAGES]. *)
Inductive error_key :=
| rate_limit
| privacy_required
| invalid_name
| invalid_phone
| phone_length
| name_too_short
| fake_name
| submit_error.

Definition ERROR_MESSAGES (k : error_key) : string :=
  match k with
  | rate_limit => "Слишком много запросов. Пожалуйста, попробуйте позже."
  | privacy_required => "Необходимо согласиться с условиями обработки данных"
  | invalid_name => "Имя обязательно для заполнения"
  | invalid_phone => "Телефон обязателен для заполнения"
  | phone_length => "Телефон должен содержать 10 цифр"
  | name_too_short => "Имя слишком короткое"
  | fake_name => "Пожалуйста, введите реальное имя"
  | submit_error => "Не удалось отправить заявку"
  end.

(** The dict [submit_feedback] builds from the form (lines 138-144). *)
Record form_data := {
  firstname : list Z;
  lastname : list Z;
  patronymic : list Z;
  phone : list Z;
  message : list Z
}.

(** The two names [validate_form_data] refuses: "тест" and "пример". *)
Definition FAKE_NAMES : list (list Z) :=
  [[1090; 1077; 1089; 1090]; [1087; 1088; 1080; 1084; 1077; 1088]].

(** [validate_form_data]: one [if] on the first name, then one
    [if]/[elif] chain that starts with the phone. *)
Definition validate_form_data (data : form_data) : list string :=
  let errors : list string := [] in
  let errors :=
    if bool_decide (firstname data = []) then
      errors ++ [ERROR_MESSAGES invalid_name]
    else errors in
  if bool_decide (phone data = []) then
    errors ++ [ERROR_MESSAGES invalid_phone]
  else if bool_decide (length (phone data) ≠ 10%nat) then
    errors ++ [ERROR_MESSAGES phone_length]
  else if bool_decide (length (firstname data) < 2)%nat then
    errors ++ [ERROR_MESSAGES name_too_short]
  else if bool_decide (lower (firstname data) ∈ FAKE_NAMES) then
    errors ++ [ERROR_MESSAGES fake_name]
  else errors.

End FormHelpers.

(** ** The settings of config.py and the start of server.py *)

(** The attributes of [Config]; [TELEGRAM_AUTHORIZED_USERS] is an empty
    dict that nothing reads. *)
Record Config := {
  DEBUG : bool;
  SECRET_KEY : string;
  TELEGRAM_BOT_TOKEN : string;
  TELEGRAM_CHAT_ID : Z;
  TELEGRAM_BOT_PASSWORD : string;
  TELEGRAM_AUTHORIZED_USERS : gmap Z Z;
  REQUEST_LIMIT : Z;
  REQUEST_WINDOW : Z
}.

(** What the class body can raise: the [RuntimeError] it makes of a
    [KeyError], and the [ValueError] of [int] on the chat id. *)
Inductive config_error :=
| RuntimeError (variable : string)
| IntValueError (literal : string).

Section Settings.

(** [str.lower], [int] on a string ([None] when it raises [ValueError]),
    and the value [secrets.token_hex(16)] returns when it is called. *)
Context (str_lower : string → string) (py_int : string → option Z)
        (token_hex_16 : string).

(** [os.environ[key]] inside the [try]: a missing key becomes the
    [RuntimeError] that names it. *)
Definition environ_get (environ : gmap string string) (key : string)
  : config_error + string :=
  match environ !! key with
  | Some v => inr v
  | None => inl (RuntimeError key)
  end.

(** The body of [class Config], on [os.environ] after [load_dotenv()]. *)
Definition load_Config (environ : gmap string string)
  : config_error + Config :=
  let debug :=
    bool_decide (str_lower (default "False" (environ !! "DEBUG"))
                 = "true") in
  let secret_key :=
    match environ !! "SECRET_KEY" with
    | Some k => if bool_decide (k = "") then token_hex_16 else k
    | None => token_hex_16
    end in
  match environ_get environ "TELEGRAM_BOT_TOKEN" with
  | inl e => inl e
  | inr bot_token =>
      match environ_get environ "TELEGRAM_CHAT_ID" with
      | inl e => inl e
      | inr chat =>
          match py_int chat with
          | None => inl (IntValueError chat)
          | Some chat_id =>
              match environ_get environ "TELEGRAM_BOT_PASSWORD" with
              | inl e => inl e
              | inr password =>
                  inr {| DEBUG := debug; SECRET_KEY := secret_key;
                         TELEGRAM_BOT_TOKEN := bot_token;
                         TELEGRAM_CHAT_ID := chat_id;
                         TELEGRAM_BOT_PASSWORD := password;
                         TELEGRAM_AUTHORIZED_USERS := ∅;
                         REQUEST_LIMIT := 3; REQUEST_WINDOW := 60 |}
              end
          end
      end
  end.

(** How the start of server.py can fail: in [Config], or in the
    constructor of the bot. *)
Inductive startup_error :=
| ConfigFailed (e : config_error)
| BotFailed (e : exn).

(** Lines 10 and 46-50 of server.py: the settings are loaded, then the bot
    is built from them. *)
Definition startup (environ : gmap string string) (E : environment)
    (w : world) : (startup_error + Config * NotificationBot) * world :=
  match load_Config environ with
  | inl e => (inl (ConfigFailed e), w)
  | inr config =>
      match __init__ (TELEGRAM_BOT_TOKEN config)
              (TELEGRAM_BOT_PASSWORD config) (TELEGRAM_CHAT_ID config) E w
      with
      | (Ok bot, w') => (inr (config, bot), w')
      | (Raise e, w') => (inl (BotFailed e), w')
      end
  end.

End Settings.

(** ASCII digits only: a [str.isdigit] for the examples. *)
Definition ascii_isdigit (c : Z) : bool := bool_decide (48 ≤ c ≤ 57).

(** Plain decimal literals only: an [int] for the examples. *)
Definition decimal_int (s : string) : option Z :=
  match NilEmpty.int_of_string s with
  | Some d => Some (Z.of_int d)
  | None => None
  end.

(** An environment with the three Telegram variables set. *)
Definition sample_environ : gmap string string :=
  {[ "TELEGRAM_BOT_TOKEN"%string := "T0K3N"%string;
     "TELEGRAM_CHAT_ID"%string := "2"%string;
     "TELEGRAM_BOT_PASSWORD"%string := "hunter2"%string ]}.

(** * Properties *)

(** ** The JSON codec: reading back what was written *)

Example json_dumps_three : Json.json_dumps [3; -12; 0] = "[3, -12, 0]"%string.
Proof. reflexivity. Qed.

Example json_loads_spaced :
  Json.json_loads " [ 7 ,-40,  0 ] "%string = Some [7; -40; 0].
Proof. reflexivity. Qed.

Example json_loads_leading_zero : Json.json_loads "[01]"%string = None.
Proof. reflexivity. Qed.

Example json_loads_float : Json.json_loads "[1.5]"%string = None.
Proof. reflexivity. Qed.

Example json_loads_empty : Json.json_loads "[]"%string = Some [].
Proof. reflexivity. Qed.

Example json_loads_trailing : Json.json_loads "[1] 2"%string = None.
Proof. reflexivity. Qed.

Section JsonFacts.
Import Json.

(* stdpp marks [append] as never simplified; the proofs below compute
   with it. *)
#[local] Arguments String.append !s1 s2 /.

Lemma string_append_assoc (a b c : string) :
  (a +:+ b) +:+ c = a +:+ (b +:+ c).
Proof. induction a as [|x a IH]; simpl; [reflexivity | by rewrite IH]. Qed.

Lemma string_length_append (a b : string) :
  String.length (a +:+ b) = (String.length a + String.length b)%nat.
Proof. induction a as [|x a IH]; simpl; [reflexivity | by rewrite IH]. Qed.

Lemma scan_digits_no_digit rest :
  no_digit_ahead rest → scan_digits rest = (Decimal.Nil, rest).
Proof. destruct rest as [|c r]; simpl; [done | by intros ->]. Qed.

Lemma scan_digits_print (d : Decimal.uint) rest :
  no_digit_ahead rest →
  scan_digits (NilEmpty.string_of_uint d +:+ rest) = (d, rest).
Proof.
  intros Hrest.
  induction d as [|d IH|d IH|d IH|d IH|d IH|d IH|d IH|d IH|d IH|d IH];
    simpl; [by apply scan_digits_no_digit | ..];
    change (is_digit _) with true; cbv iota; by rewrite IH.
Qed.

(** The digits of a positive number do not start with a zero. *)
Lemma to_uint_head_nonzero (p : positive) d :
  Pos.to_uint p ≠ Decimal.D0 d.
Proof.
  intros Hp.
  assert (Hn : Decimal.unorm (Pos.to_uint p) = Pos.to_uint p).
  { rewrite <- Unsigned.to_of, Unsigned.of_to. reflexivity. }
  rewrite Hp in Hn. change (Decimal.unorm d = Decimal.D0 d) in Hn.
  assert (d = Decimal.Nil ∨ d ≠ Decimal.Nil) as [->|Hd]
    by (destruct d; [by left | by right ..]).
  - by apply (Unsigned.to_uint_nonzero p).
  - pose proof (nb_digits_unorm d Hd) as Hle.
    rewrite Hn in Hle. simpl in Hle. lia.
Qed.

(** The text of a positive number starts with a non-zero digit. *)
Lemma pos_print_head (p : positive) :
  ∃ c s, NilEmpty.string_of_uint (Pos.to_uint p) = String c s
         ∧ is_digit c = true ∧ Ascii.eqb c "0" = false
         ∧ Ascii.eqb c "-" = false.
Proof.
  pose proof (to_uint_head_nonzero p) as Hhead.
  pose proof (Unsigned.to_uint_nonnil p) as Hnil.
  destruct (Pos.to_uint p) as [|d|d|d|d|d|d|d|d|d|d];
    [done | by destruct (Hhead d) | ..];
    simpl; eexists _, _; by split_and!.
Qed.

Lemma scan_nat_print_pos (p : positive) rest :
  no_digit_ahead rest →
  scan_nat (NilEmpty.string_of_uint (Pos.to_uint p) +:+ rest)
  = Some (Pos.to_uint p, rest).
Proof.
  intros Hrest.
  rewrite <- (scan_digits_print (Pos.to_uint p) rest Hrest).
  destruct (pos_print_head p) as (c & s & -> & Hd & H0 & _).
  unfold scan_nat. simpl String.append. cbv iota. by rewrite H0, Hd.
Qed.

(** Text printed for an integer starts with a digit or a minus sign:
    neither whitespace nor a closing bracket. *)
Lemma dump_int_head (z : Z) :
  ∃ c s, dump_int z = String c s ∧ is_ws c = false
         ∧ Ascii.eqb c "]" = false.
Proof.
  unfold dump_int.
  destruct z as [|p|p]; simpl; [by eauto | | by eauto].
  pose proof (Unsigned.to_uint_nonnil p) as Hnil.
  destruct (Pos.to_uint p); [done | ..]; simpl; by eauto.
Qed.

Lemma scan_int_print (z : Z) rest :
  no_digit_ahead rest → scan_int (dump_int z +:+ rest) = Some (z, rest).
Proof.
  intros Hrest. unfold dump_int.
  pose proof (of_to z) as Hz.
  destruct z as [|p|p]; simpl Z.to_int in *;
    simpl NilEmpty.string_of_int.
  - reflexivity.
  - pose proof (scan_nat_print_pos p rest Hrest) as Hnat.
    destruct (pos_print_head p) as (c & s & Hp & _ & _ & Hminus).
    rewrite Hp in *. unfold scan_int. simpl String.append in *.
    cbv iota. by rewrite Hminus, Hnat, Hz.
  - unfold scan_int. simpl String.append.
    change (Ascii.eqb "-" "-") with true. cbv iota.
    by rewrite (scan_nat_print_pos p rest Hrest), Hz.
Qed.

Lemma skip_ws_dump_int (z : Z) rest :
  skip_ws (dump_int z +:+ rest) = dump_int z +:+ rest.
Proof.
  destruct (dump_int_head z) as (c & s & -> & Hws & _).
  simpl. by rewrite Hws.
Qed.

Lemma dump_items_cons (z : Z) (l : list Z) :
  dump_items (z :: l) = dump_int z +:+ dump_tail l.
Proof.
  revert z. induction l as [|z' l IH]; intros z.
  - simpl. induction (dump_int z) as [|c s IHs]; simpl; [done | by f_equal].
  - change (dump_items (z :: z' :: l))
      with (dump_int z +:+ ", " +:+ dump_items (z' :: l)).
    by rewrite IH.
Qed.

Lemma dump_int_nonempty (z : Z) : (0 < String.length (dump_int z))%nat.
Proof. destruct (dump_int_head z) as (c & s & -> & _). simpl. lia. Qed.

Lemma dump_tail_length (l : list Z) :
  (length l ≤ String.length (dump_tail l))%nat.
Proof.
  induction l as [|z l IH]; simpl; [lia |].
  rewrite string_length_append. lia.
Qed.

Lemma scan_items_print (l : list Z) :
  ∀ (z : Z) (acc : list Z) (fuel : nat) (after : string),
    (length l < fuel)%nat →
    scan_items fuel (dump_int z +:+ dump_tail l +:+ String "]" after) acc
    = Some (rev acc ++ z :: l, after).
Proof.
  induction l as [|z' l IH]; intros z acc fuel after Hfuel;
    (destruct fuel as [|fuel]; [simpl in Hfuel; lia |]).
  - simpl dump_tail. simpl scan_items.
    rewrite scan_int_print by done. reflexivity.
  - simpl dump_tail. simpl scan_items.
    rewrite scan_int_print by done. simpl.
    rewrite string_append_assoc, skip_ws_dump_int.
    rewrite IH by (simpl in Hfuel; lia).
    simpl. by rewrite <- app_assoc.
Qed.

(** Reading back the text written for a list of integers gives the list. *)
Lemma json_loads_dumps (l : list Z) : json_loads (json_dumps l) = Some l.
Proof.
  destruct l as [|z l]; [reflexivity |].
  unfold json_dumps. rewrite dump_items_cons, string_append_assoc.
  unfold json_loads. simpl skip_ws at 1. cbv beta iota.
  rewrite Ascii.eqb_refl, skip_ws_dump_int.
  destruct (dump_int_head z) as (c & s & Hz & _ & Hc).
  rewrite Hz at 1. simpl String.append at 1. cbv iota. rewrite Hc.
  rewrite scan_items_print.
  - reflexivity.
  - rewrite !string_length_append. simpl.
    pose proof (dump_tail_length l). pose proof (dump_int_nonempty z). lia.
Qed.

(** The fuel of [scan_items] only bounds the number of items: every item
    consumes at least one character, so the length of the text is always
    enough, and a parse that succeeds with some fuel succeeds with that. *)
Lemma skip_ws_length (s : string) :
  (String.length (skip_ws s) ≤ String.length s)%nat.
Proof.
  induction s as [|c s IH]; simpl; [lia |].
  destruct (is_ws c); simpl; lia.
Qed.

Lemma scan_digits_length (s : string) :
  ∀ d rest,
    scan_digits s = (d, rest) → (String.length rest ≤ String.length s)%nat.
Proof.
  induction s as [|c s IH]; intros d rest; cbn [scan_digits String.length].
  - intros [= _ <-]. simpl. lia.
  - destruct (is_digit c); [|intros [= _ <-]; simpl; lia].
    destruct (scan_digits s) as [d' rest'].
    specialize (IH d' rest' eq_refl).
    destruct (uint_of_char c (Some d')); intros [= _ <-]; simpl; lia.
Qed.

Lemma is_digit_cons (c : ascii) (d : Decimal.uint) :
  is_digit c = true → ∃ d', uint_of_char c (Some d) = Some d'.
Proof.
  unfold is_digit.
  destruct (uint_of_char c (Some Decimal.Nil)) as [u|] eqn:Hu; [|done].
  intros _. apply uint_of_char_spec in Hu.
  destruct Hu as [[-> _]|[[-> _]|[[-> _]|[[-> _]|[[-> _]|[[-> _]|
                 [[-> _]|[[-> _]|[[-> _]|[-> _]]]]]]]]]]; by eexists.
Qed.

Lemma scan_digits_progress (c : ascii) (s : string) d rest :
  is_digit c = true →
  scan_digits (String c s) = (d, rest) →
  (String.length rest ≤ String.length s)%nat.
Proof.
  intros Hc. cbn [scan_digits]. rewrite Hc.
  destruct (scan_digits s) as [d' rest'] eqn:Hs.
  destruct (is_digit_cons c d' Hc) as [u ->].
  intros Heq. inversion Heq; subst.
  by apply scan_digits_length in Hs.
Qed.

Lemma scan_nat_length (s : string) d rest :
  scan_nat s = Some (d, rest) → (String.length rest < String.length s)%nat.
Proof.
  destruct s as [|c s]; cbn [scan_nat String.length]; [done |].
  destruct (Ascii.eqb c "0"); [intros Heq; inversion Heq; subst; lia |].
  destruct (is_digit c) eqn:Hc; [|done].
  intros Heq. inversion Heq as [Hscan].
  apply scan_digits_progress in Hscan; [lia | done].
Qed.

Lemma scan_int_length (s : string) z rest :
  scan_int s = Some (z, rest) → (String.length rest < String.length s)%nat.
Proof.
  destruct s as [|c s]; cbn [scan_int String.length]; [done |].
  destruct (Ascii.eqb c "-").
  - destruct (scan_nat s) as [[d r]|] eqn:Hn; [|done].
    intros Heq. inversion Heq; subst.
    apply scan_nat_length in Hn. lia.
  - destruct (scan_nat (String c s)) as [[d r]|] eqn:Hn; [|done].
    intros Heq. inversion Heq; subst.
    apply scan_nat_length in Hn. cbn [String.length] in Hn. lia.
Qed.

Lemma scan_items_fuel_enough (fuel : nat) :
  ∀ (s : string) (acc : list Z) r,
    scan_items fuel s acc = Some r →
    ∀ fuel', (String.length s ≤ fuel')%nat →
             scan_items fuel' s acc = Some r.
Proof.
  induction fuel as [|fuel IH]; intros s acc r; cbn [scan_items]; [done |].
  destruct (scan_int s) as [[z rest]|] eqn:Hint; [|done].
  pose proof (scan_int_length _ _ _ Hint) as Hlen.
  pose proof (skip_ws_length rest) as Hws.
  intros Hrun fuel' Hfuel'.
  destruct fuel' as [|fuel']; [lia |]. cbn [scan_items]. rewrite Hint.
  destruct (skip_ws rest) as [|c rest']; [done |].
  destruct (Ascii.eqb c "]"); [done |].
  destruct (Ascii.eqb c ","); [|done].
  apply (IH _ _ _ Hrun).
  pose proof (skip_ws_length rest'). cbn [String.length] in Hws. lia.
Qed.

End JsonFacts.

(** ** The broadcast: [send_message] *)

Section Broadcast.
Context (E : environment) (message_text : string).

Lemma send_one_run (success : bool) (chat_id : Z) (b : NotificationBot)
    (w : world) :
  let req := sendMessage_request (token b) chat_id message_text in
  let out := http_post E (posts w) req in
  send_one message_text success chat_id E (b, w)
  = (Ok (success || delivered out),
     (b, add_log (send_log chat_id out) (add_post (req, out) w))).
Proof.
  cbv [send_one try_except mbind M_bind mret M_ret get_self requests_post
       logger set_world delivered send_log]; simpl.
  destruct (http_post E (posts w) _) as [r|detail]; simpl.
  - case_bool_decide; simpl; by rewrite ?orb_true_r, ?orb_false_r.
  - by rewrite orb_false_r.
Qed.

(** The loop never raises, leaves the bot as it was, makes exactly the
    calls of [transcript], and ends with [success] true iff it started so
    or one of the calls was delivered. *)
Lemma send_loop_run (b : NotificationBot) (chats : list Z) :
  ∀ (success : bool) (w : world),
    ∃ w',
      send_loop message_text chats success E (b, w)
      = (Ok (success
             || existsb delivered
                  (transcript E (token b) message_text (posts w) chats).*2),
         (b, w'))
      ∧ posts w'
        = posts w ++ transcript E (token b) message_text (posts w) chats
      ∧ auth_file w' = auth_file w ∧ env_file w' = env_file w
      ∧ replies w' = replies w ∧ attempts w' = attempts w.
Proof.
  induction chats as [|chat_id rest IH]; intros success w.
  - exists w. simpl. by rewrite orb_false_r, app_nil_r.
  - simpl send_loop. unfold mbind, M_bind.
    rewrite send_one_run. cbv zeta.
    set (req := sendMessage_request (token b) chat_id message_text).
    set (out := http_post E (posts w) req).
    destruct (IH (success || delivered out)
                 (add_log (send_log chat_id out) (add_post (req, out) w)))
      as (w' & Hrun & Hposts & Hfile & Henv & Hreplies & Hattempts).
    exists w'. rewrite Hrun. simpl in *.
    rewrite Hposts, <- app_assoc, orb_assoc. done.
Qed.

Lemma transcript_requests (tok : string) (chats : list Z) :
  ∀ history,
    (transcript E tok message_text history chats).*1
    = (λ c, sendMessage_request tok c message_text) <$> chats.
Proof.
  induction chats as [|c rest IH]; intros history; simpl; [done |].
  by rewrite IH.
Qed.

End Broadcast.



Example send_message_one_of_three :
  outcome (send_message "hello" calm (bot_with {[1; 2; 3]}, fresh_world))
  = Ok true.
Proof. vm_compute. reflexivity. Qed.

Example send_message_none_of_three :
  outcome (send_message "hello" dead (bot_with {[1; 2; 3]}, fresh_world))
  = Ok false.
Proof. vm_compute. reflexivity. Qed.

(** C2. For every message text, when the recipient store is empty
    [send_message] returns [False] at once: it does not raise, it makes no
    call of [requests.post], and all it does is log a warning. *)
Theorem send_message_empty_store (message_text : string) (E : environment)
    (b : NotificationBot) (w : world) :
  authorized_users b = ∅ →
  send_message message_text E (b, w)
  = (Ok false, (b, add_log (WARNING, SendWithoutUsers) w))
  ∧ posts (world_after (send_message message_text E (b, w))) = posts w.
Proof.
  intros Hempty.
  assert (Hrun : send_message message_text E (b, w)
                 = (Ok false, (b, add_log (WARNING, SendWithoutUsers) w))).
  { unfold send_message, mbind, M_bind, get_self. simpl.
    by rewrite bool_decide_eq_true_2. }
  by rewrite Hrun.
Qed.

Lemma send_message_empty_store_witness :
  send_message "order #17" calm (bot_with ∅, seeded_world)
  = (Ok false,
     (bot_with ∅, add_log (WARNING, SendWithoutUsers) seeded_world))
  ∧ posts (world_after
             (send_message "order #17" calm (bot_with ∅, seeded_world)))
    = posts seeded_world.
Proof. apply send_message_empty_store. reflexivity. Defined.

(** The fields of the requests of a broadcast: the chat ids are the
    recipients, in order, and every request carries the message text, the
    sendMessage address of the bot's token and the timeout of 5 seconds. *)
Lemma transcript_fields (E : environment) (tok message_text : string)
    (chats : list Z) (history : list (request * post_outcome)) :
  let sent := transcript E tok message_text history chats in
  json_chat_id <$> sent.*1 = chats
  ∧ ∀ p, p ∈ sent →
         json_text p.1 = message_text
         ∧ url p.1
           = ("https://api.telegram.org/bot" +:+ tok +:+ "/sendMessage")%string
         ∧ timeout p.1 = 5.
Proof.
  intros sent. unfold sent.
  pose proof (transcript_requests E message_text tok chats history) as Hreqs.
  split.
  - rewrite Hreqs, <- list_fmap_compose. clear sent Hreqs.
    induction chats as [|c rest IH]; [done |].
    simpl. by f_equal.
  - intros [req out] Hp.
    assert (Hreq : req ∈ (transcript E tok message_text history chats).*1).
    { apply list_elem_of_fmap. by exists (req, out). }
    rewrite Hreqs in Hreq.
    apply list_elem_of_fmap in Hreq as (c & -> & _). done.
Qed.

(** C3. A call that raises or is answered with a status other than 200
    does not stop the broadcast: whatever the transport does,
    [send_message] returns normally, and the calls it made are one call per
    recipient of the store: the chat ids of the requests are the members
    of the store, each once, and every request carries the message text,
    the sendMessage address of the bot's token and the timeout of 5
    seconds. *)
Theorem send_message_attempts_every_recipient (message_text : string)
    (E : environment) (b : NotificationBot) (w : world) :
  ∃ (success : bool) (sent : list (request * post_outcome)) (w' : world),
    send_message message_text E (b, w) = (Ok success, (b, w'))
    ∧ posts w' = posts w ++ sent
    ∧ json_chat_id <$> sent.*1 ≡ₚ elements (authorized_users b)
    ∧ (∀ p, p ∈ sent →
         json_text p.1 = message_text
         ∧ url p.1
           = ("https://api.telegram.org/bot" +:+ token b
              +:+ "/sendMessage")%string
         ∧ timeout p.1 = 5)
    ∧ (∀ chat_id, chat_id ∈ authorized_users b →
         ∃ p, p ∈ sent ∧ json_chat_id p.1 = chat_id
              ∧ json_text p.1 = message_text)
    ∧ sent.*1 ≡ₚ (λ c, sendMessage_request (token b) c message_text)
                   <$> elements (authorized_users b).
Proof.
  unfold send_message, mbind, M_bind, get_self. simpl.
  case_bool_decide as Hempty.
  - exists false, [], (add_log (WARNING, SendWithoutUsers) w).
    rewrite Hempty, elements_empty. simpl.
    split_and!; [done | by rewrite app_nil_r | done | | | done].
    + intros p Hp. by apply not_elem_of_nil in Hp.
    + intros chat_id Hin. by apply not_elem_of_empty in Hin.
  - set (chats := elements (authorized_users b)).
    destruct (send_loop_run E message_text b chats false w)
      as (w' & Hrun & Hposts & _).
    set (sent := transcript E (token b) message_text (posts w) chats) in *.
    pose proof (transcript_requests E message_text (token b) chats (posts w))
      as Hreqs.
    destruct (transcript_fields E (token b) message_text chats (posts w))
      as [Hids Hfields].
    fold sent in Hreqs, Hids, Hfields.
    exists (existsb delivered sent.*2), sent, w'.
    split_and!; [done | done | by rewrite Hids | done | | by rewrite Hreqs].
    intros chat_id Hin.
    assert (Hid : chat_id ∈ json_chat_id <$> sent.*1)
      by (rewrite Hids; by apply elem_of_elements).
    apply list_elem_of_fmap in Hid as (req & -> & Hreq).
    apply list_elem_of_fmap in Hreq as (p & -> & Hp).
    exists p. split_and!; [done | done |]. by apply Hfields.
Qed.

(** With chat 3 timing out and chat 1 answered 403, all three recipients
    are still called, each with the text. *)
Example send_message_calls_all_three :
  (λ p, (json_chat_id p.1, json_text p.1))
    <$> posts (world_after
          (send_message "hello" calm (bot_with {[1; 2; 3]}, fresh_world)))
  ≡ₚ [(1, "hello"%string); (2, "hello"%string); (3, "hello"%string)].
Proof.
  vm_compute. symmetry. apply Permutation_rev.
Qed.

(** ** The authorization handler: [verify_user] *)

Section Handler.
Context (E : environment).

Lemma reply_text_run (chat_id : Z) (msg : string) (b : NotificationBot)
    (w : world) :
  reply_text chat_id msg E (b, w)
  = (if refuses E ReplyText then Raise TelegramError else Ok (),
     (b, replied chat_id msg w)).
Proof.
  cbv [reply_text mbind M_bind mret M_ret set_world refused raise replied].
  simpl. by destruct (refuses E ReplyText).
Qed.

Lemma save_run (b : NotificationBot) (w : world) :
  _save_authorized_users E (b, w)
  = (Ok (), (b, saved E (authorized_users b) w)).
Proof.
  cbv [_save_authorized_users try_except mbind M_bind mret M_ret get_self
       open_write refused raise set_world logger saved].
  simpl. by destruct (refuses E OpenWrite).
Qed.

Lemma add_run (chat_id : Z) (b : NotificationBot) (w : world) :
  let users := {[chat_id]} ∪ authorized_users b in
  add chat_id E (b, w)
  = (Ok (), (set_authorized_users users b, saved E users w)).
Proof.
  unfold add, mbind, M_bind, set_attr. simpl. by rewrite save_run.
Qed.

Lemma verify_user_run_denied (update : Update) (b : NotificationBot)
    (w : world) :
  message_chat_id update ≠ admin_chat_id b →
  verify_user update E (b, w)
  = (if refuses E ReplyText then Raise TelegramError else Ok (),
     (b, replied (message_chat_id update) MSG_ACCESS_DENIED w)).
Proof.
  intros Hne. unfold verify_user, mbind, M_bind, get_self. simpl.
  rewrite bool_decide_eq_true_2 by done. apply reply_text_run.
Qed.

Lemma verify_user_run_granted (update : Update) (b : NotificationBot)
    (w : world) :
  message_chat_id update = admin_chat_id b →
  message_text update = Some (_password b) →
  let users := {[admin_chat_id b]} ∪ authorized_users b in
  let w1 := replied (admin_chat_id b) MSG_ACCESS_GRANTED (saved E users w) in
  verify_user update E (b, w)
  = if refuses E ReplyText then
      (Raise TelegramError, (set_authorized_users users b, w1))
    else
      (Ok (),
       (set_authorized_users users b,
        add_log (INFO, UserAuthorized (admin_chat_id b)) w1)).
Proof.
  intros Hadmin Htext. unfold verify_user, mbind, M_bind, get_self. simpl.
  rewrite bool_decide_eq_false_2 by (intros Hne; by apply Hne).
  rewrite Htext. simpl. rewrite bool_decide_eq_true_2 by done.
  rewrite Hadmin, add_run. cbv zeta. rewrite reply_text_run.
  by destruct (refuses E ReplyText).
Qed.

Lemma verify_user_run_invalid (update : Update) (b : NotificationBot)
    (w : world) :
  message_chat_id update = admin_chat_id b →
  message_text update ≠ Some (_password b) →
  let w1 := replied (admin_chat_id b) MSG_INVALID_PASSWORD w in
  verify_user update E (b, w)
  = if refuses E ReplyText then (Raise TelegramError, (b, w1))
    else (Ok (), (b, add_log (WARNING, LoginFailed (admin_chat_id b)) w1)).
Proof.
  intros Hadmin Htext. unfold verify_user, mbind, M_bind, get_self. simpl.
  rewrite bool_decide_eq_false_2 by (intros Hne; by apply Hne).
  assert (Hno : is_password (message_text update) b = false).
  { unfold is_password. destruct (message_text update) as [s|]; [|done].
    apply bool_decide_eq_false_2. congruence. }
  rewrite Hno, Hadmin, reply_text_run.
  by destruct (refuses E ReplyText).
Qed.

End Handler.

(** What [saved] and [replied] leave alone. *)
Lemma saved_replies E users w : replies (saved E users w) = replies w.
Proof. unfold saved. by destruct (refuses E OpenWrite). Qed.

Lemma saved_auth_file E users w :
  auth_file (saved E users w)
  = if refuses E OpenWrite then auth_file w
    else Some (Json.json_dumps (elements users)).
Proof. unfold saved. by destruct (refuses E OpenWrite). Qed.

Lemma filter_eq_absent (a : Z) (l : list Z) :
  a ∉ l → filter (λ c, c = a) l = [].
Proof.
  induction l as [|x l IH]; intros Hnot; [done |].
  rewrite filter_cons_False by (intros ->; apply Hnot; left).
  apply IH. intros Hin. apply Hnot. by right.
Qed.

(** An element of a duplicate-free list occurs in it once. *)
Lemma filter_eq_once (a : Z) (l : list Z) :
  NoDup l → a ∈ l → length (filter (λ c, c = a) l) = 1%nat.
Proof.
  induction 1 as [|x l Hx Hnd IH]; intros Hin; [set_solver |].
  destruct (decide (x = a)) as [->|Hne].
  - rewrite filter_cons_True by done. by rewrite filter_eq_absent.
  - rewrite filter_cons_False by done. apply IH.
    by apply elem_of_cons in Hin as [->|Hin].
Qed.

(** C5. An inbound text message whose sender is not the administrator is
    answered "access denied" and changes nothing in the bot: neither the
    recipient store nor the secret (nor the backing file, nor the log),
    also when the text is the current secret.  The identity check comes
    before the comparison with the secret. *)
Theorem verify_user_non_admin_denied (update : Update) (E : environment)
    (b : NotificationBot) (w : world) :
  message_chat_id update ≠ admin_chat_id b →
  let r := verify_user update E (b, w) in
  bot_after r = b
  ∧ replies (world_after r)
    = replies w ++ [(message_chat_id update, MSG_ACCESS_DENIED)]
  ∧ auth_file (world_after r) = auth_file w
  ∧ log (world_after r) = log w.
Proof.
  intros Hne r. unfold r. by rewrite verify_user_run_denied.
Qed.

(** Chat 5 sends the right secret to a bot whose administrator is chat 2. *)
Lemma verify_user_non_admin_denied_witness :
  let r := verify_user (text_from 5 "hunter2") calm
             (bot_with {[2]}, fresh_world) in
  bot_after r = bot_with {[2]}
  ∧ replies (world_after r)
    = replies fresh_world ++ [(5, MSG_ACCESS_DENIED)]
  ∧ auth_file (world_after r) = auth_file fresh_world
  ∧ log (world_after r) = log fresh_world.
Proof.
  apply (verify_user_non_admin_denied (text_from 5 "hunter2")).
  simpl. lia.
Defined.




Example verify_user_admin_wrong_text :
  let r := verify_user (text_from 2 "hunter3") calm
             (bot_with {[7]}, fresh_world) in
  bot_after r = bot_with {[7]}
  ∧ replies (world_after r) = [(2, MSG_INVALID_PASSWORD)]
  ∧ log (world_after r) = [(WARNING, LoginFailed 2)].
Proof. vm_compute. done. Qed.

(** C8. Authorization is idempotent.  When the administrator sends the
    secret twice in a row, the bot after the second message is the bot
    after the first, the administrator's chat id occurs once among the
    members of the store (and once in the file the second message
    writes), and both messages are answered "access granted". *)
Theorem verify_user_twice_idempotent (E1 E2 : environment)
    (b : NotificationBot) (w : world) :
  let update := text_from (admin_chat_id b) (_password b) in
  let r1 := verify_user update E1 (b, w) in
  let r2 := verify_user update E2 (bot_after r1, world_after r1) in
  let users := authorized_users (bot_after r2) in
  bot_after r2 = bot_after r1
  ∧ users = authorized_users (bot_after r1)
  ∧ admin_chat_id b ∈ users
  ∧ length (filter (λ c, c = admin_chat_id b) (elements users)) = 1%nat
  ∧ replies (world_after r2)
    = replies w ++ [(admin_chat_id b, MSG_ACCESS_GRANTED);
                    (admin_chat_id b, MSG_ACCESS_GRANTED)]
  ∧ (refuses E2 OpenWrite = false →
       auth_file (world_after r2) = Some (Json.json_dumps (elements users))).
Proof.
  intros update r1 r2 users.
  set (S1 := {[admin_chat_id b]} ∪ authorized_users b).
  assert (H1 : bot_after r1 = set_authorized_users S1 b
               ∧ replies (world_after r1)
                 = replies w ++ [(admin_chat_id b, MSG_ACCESS_GRANTED)]).
  { unfold r1. rewrite verify_user_run_granted by done. cbv zeta.
    destruct (refuses E1 ReplyText);
      unfold bot_after, world_after, replied; simpl;
      by rewrite saved_replies. }
  destruct H1 as [Hb1 Hr1].
  assert (H2 : bot_after r2 = set_authorized_users S1 b
               ∧ replies (world_after r2)
                 = replies (world_after r1)
                   ++ [(admin_chat_id b, MSG_ACCESS_GRANTED)]
               ∧ auth_file (world_after r2)
                 = if refuses E2 OpenWrite then auth_file (world_after r1)
                   else Some (Json.json_dumps (elements S1))).
  { unfold r2. rewrite Hb1.
    rewrite verify_user_run_granted by done. cbv zeta. simpl.
    replace ({[admin_chat_id b]} ∪ S1) with S1
      by (unfold S1; by rewrite (assoc_L (∪)), union_idemp_L).
    destruct (refuses E2 ReplyText);
      unfold bot_after, world_after, replied; simpl;
      by rewrite saved_replies, saved_auth_file. }
  destruct H2 as (Hb2 & Hr2 & Hf2).
  assert (Husers : users = S1) by (unfold users; by rewrite Hb2).
  split_and!.
  - by rewrite Hb2, Hb1.
  - by rewrite Husers, Hb1.
  - rewrite Husers. by apply elem_of_union_l, elem_of_singleton.
  - rewrite Husers. apply filter_eq_once; [apply NoDup_elements |].
    by apply elem_of_elements, elem_of_union_l, elem_of_singleton.
  - by rewrite Hr2, Hr1, <- app_assoc.
  - intros Hno. by rewrite Hf2, Hno, Husers.
Qed.

Example verify_user_twice_store :
  let update := text_from 2 "hunter2" in
  let r1 := verify_user update calm (bot_with ∅, fresh_world) in
  let r2 := verify_user update calm (bot_after r1, world_after r1) in
  elements (authorized_users (bot_after r2)) = [2]
  ∧ auth_file (world_after r2) = Some "[2]"%string
  ∧ replies (world_after r2)
    = [(2, MSG_ACCESS_GRANTED); (2, MSG_ACCESS_GRANTED)].
Proof. vm_compute. done. Qed.

(** ** Password rotation: [update_password] *)

Section Rotation.
Context (E : environment).

(** The [try] block around [os.remove] never raises. *)
Lemma remove_step_run (b : NotificationBot) (w : world) :
  try_except
    (present ← os_path_exists;
     if present : bool then os_remove else mret ())
    (λ e, logger ERROR (RemoveAuthFileFailed e)) E (b, w)
  = (Ok (), (b, removed E w)).
Proof.
  cbv [try_except mbind M_bind mret M_ret os_path_exists get_world os_remove
       refused raise set_world logger removed].
  simpl. destruct (auth_file w) as [content|] eqn:Hfile; simpl; [|done].
  destruct (refuses E Remove); simpl; [done |]. by rewrite Hfile.
Qed.

Lemma update_password_run (new_password : string) (b : NotificationBot)
    (w : world) :
  let b1 := set_authorized_users ∅ (set_password new_password b) in
  let w1 := add_attempt SetKey (removed E w) in
  update_password new_password E (b, w)
  = if refuses E SetKey then (Raise (OSError SetKey), (b1, w1))
    else
      (Ok (),
       (b1,
        add_log (INFO, PasswordUpdated)
          (set_env_file
             (<["TELEGRAM_BOT_PASSWORD" := new_password]> (env_file w1))
             w1))).
Proof.
  unfold update_password.
  unfold mbind at 1 2 3, M_bind at 1 2 3, set_attr. simpl.
  rewrite remove_step_run.
  cbv [set_key mbind M_bind mret M_ret refused raise set_world logger].
  simpl. by destruct (refuses E SetKey).
Qed.

Lemma removed_auth_file (w : world) :
  auth_file (removed E w)
  = if refuses E Remove then auth_file w else None.
Proof.
  unfold removed.
  destruct (auth_file w) eqn:Hfile, (refuses E Remove); simpl;
    by rewrite ?Hfile.
Qed.

Lemma removed_attempts (w : world) :
  attempts (removed E w)
  = attempts w
    ++ (if bool_decide (is_Some (auth_file w)) then [Remove] else []).
Proof.
  unfold removed. destruct (auth_file w) as [content|].
  - rewrite bool_decide_eq_true_2 by eauto. by destruct (refuses E Remove).
  - rewrite bool_decide_eq_false_2 by (by intros [? ?]).
    by rewrite app_nil_r.
Qed.

Lemma removed_log (w : world) :
  log (removed E w)
  = log w
    ++ (if bool_decide (is_Some (auth_file w)) && refuses E Remove
        then [(ERROR, RemoveAuthFileFailed (OSError Remove))] else []).
Proof.
  unfold removed. destruct (auth_file w) as [content|].
  - rewrite bool_decide_eq_true_2 by eauto.
    destruct (refuses E Remove); simpl; [done | by rewrite app_nil_r].
  - rewrite bool_decide_eq_false_2 by (by intros [? ?]).
    simpl. by rewrite app_nil_r.
Qed.

Lemma removed_frame (w : world) :
  env_file (removed E w) = env_file w
  ∧ replies (removed E w) = replies w
  ∧ posts (removed E w) = posts w.
Proof.
  unfold removed. by destruct (auth_file w), (refuses E Remove).
Qed.

End Rotation.

(** C4, as the code has it.  After [update_password new] the recipient
    store is empty.  The backing file is gone when [os.remove] is not
    refused; when it is refused the failure is caught and logged and the
    file stays as it was.  The old secret no longer authorizes: a message
    of the administrator that carries the old secret, when that differs
    from [new], is answered "invalid password" and leaves the bot as it
    is, while a message that carries [new] puts the administrator's chat
    id back into the store. *)
Theorem update_password_revokes (new_password : string) (E : environment)
    (b : NotificationBot) (w : world) :
  let r := update_password new_password E (b, w) in
  let b1 := bot_after r in
  let w1 := world_after r in
  authorized_users b1 = ∅
  ∧ (refuses E Remove = false → auth_file w1 = None)
  ∧ (refuses E Remove = true →
     auth_file w1 = auth_file w
     ∧ (is_Some (auth_file w) →
        (ERROR, RemoveAuthFileFailed (OSError Remove)) ∈ log w1))
  ∧ (_password b ≠ new_password →
     ∀ E',
       let r' := verify_user (text_from (admin_chat_id b) (_password b)) E'
                   (b1, w1) in
       bot_after r' = b1
       ∧ replies (world_after r')
         = replies w1 ++ [(admin_chat_id b, MSG_INVALID_PASSWORD)])
  ∧ (∀ E',
       let r' := verify_user (text_from (admin_chat_id b) new_password) E'
                   (b1, w1) in
       authorized_users (bot_after r') = {[admin_chat_id b]}
       ∧ replies (world_after r')
         = replies w1 ++ [(admin_chat_id b, MSG_ACCESS_GRANTED)]).
Proof.
  intros r b1 w1.
  assert (Hb1 : b1 = set_authorized_users ∅ (set_password new_password b)).
  { unfold b1, r. rewrite update_password_run. cbv zeta.
    by destruct (refuses E SetKey). }
  assert (Hfile : auth_file w1 = auth_file (removed E w)).
  { unfold w1, r. rewrite update_password_run. cbv zeta.
    by destruct (refuses E SetKey). }
  assert (Hlog : ∀ entry, entry ∈ log (removed E w) → entry ∈ log w1).
  { intros entry Hin. unfold w1, r. rewrite update_password_run. cbv zeta.
    destruct (refuses E SetKey); unfold world_after; simpl; [done |].
    apply elem_of_app. by left. }
  split_and!.
  - by rewrite Hb1.
  - intros Hno. by rewrite Hfile, removed_auth_file, Hno.
  - intros Hyes. split; [by rewrite Hfile, removed_auth_file, Hyes |].
    intros Hpresent. apply Hlog. rewrite removed_log, Hyes.
    rewrite bool_decide_eq_true_2 by done. simpl.
    apply elem_of_app. right. left.
  - intros Hold E' r'. unfold r'.
    rewrite verify_user_run_invalid; rewrite Hb1; simpl; [| done | congruence].
    by destruct (refuses E' ReplyText).
  - intros E' r'. unfold r'.
    rewrite verify_user_run_granted; rewrite Hb1; simpl; [| done | done].
    rewrite (right_id_L ∅ (∪)).
    destruct (refuses E' ReplyText);
      unfold bot_after, world_after, replied; simpl;
      by rewrite saved_replies.
Qed.

(** The secret "hunter2" is replaced by "s3cret" while the backing file
    holds three recipients. *)
Lemma update_password_revokes_witness :
  let r := update_password "s3cret" calm (bot_with {[1; 2; 3]}, seeded_world) in
  authorized_users (bot_after r) = ∅
  ∧ auth_file (world_after r) = None
  ∧ replies (world_after
      (verify_user (text_from 2 "hunter2") calm
         (bot_after r, world_after r)))
    = replies (world_after r) ++ [(2, MSG_INVALID_PASSWORD)]
  ∧ authorized_users (bot_after
      (verify_user (text_from 2 "s3cret") calm
         (bot_after r, world_after r)))
    = {[2]}.
Proof.
  intros r.
  destruct (update_password_revokes "s3cret" calm (bot_with {[1; 2; 3]})
              seeded_world) as (Hstore & Hfile & _ & Hold & Hnew).
  split_and!.
  - exact Hstore.
  - exact (Hfile eq_refl).
  - refine (proj2 (Hold _ calm)). simpl. discriminate.
  - exact (proj1 (Hnew calm)).
Defined.

(** The claim without the condition on [os.remove] fails: the backing
    file exists, its removal is refused, and after [update_password] the
    file is still there with the old recipients in it. *)
Lemma update_password_refused_removal_keeps_file :
  let r := update_password "s3cret" (refusing Remove)
             (bot_with {[1; 2; 3]}, seeded_world) in
  auth_file seeded_world = Some "[1, 2, 3]"%string
  ∧ authorized_users (bot_after r) = ∅
  ∧ auth_file (world_after r) = Some "[1, 2, 3]"%string
  ∧ auth_file (world_after r) ≠ None.
Proof. vm_compute. done. Qed.

(** C9, as the code has it.  [update_password] raises to its caller
    exactly when [set_key] on the .env file is refused; nothing is logged
    for that failure and the key is not written.  A refused removal of the
    backing file is caught and logged and does not make the call fail: the
    file stays, and the call goes on to [set_key].  Neither operation is
    attempted a second time.  The secret and the store are replaced in
    every case. *)
Theorem update_password_persistence_failures (new_password : string)
    (E : environment) (b : NotificationBot) (w : world) :
  let r := update_password new_password E (b, w) in
  let file_present := bool_decide (is_Some (auth_file w)) in
  let removal_failed := file_present && refuses E Remove in
  outcome r = (if refuses E SetKey then Raise (OSError SetKey) else Ok ())
  ∧ attempts (world_after r)
    = attempts w ++ (if file_present then [Remove] else []) ++ [SetKey]
  ∧ log (world_after r)
    = log w
      ++ (if removal_failed
          then [(ERROR, RemoveAuthFileFailed (OSError Remove))] else [])
      ++ (if refuses E SetKey then [] else [(INFO, PasswordUpdated)])
  ∧ (removal_failed = true → auth_file (world_after r) = auth_file w)
  ∧ (refuses E SetKey = true → env_file (world_after r) = env_file w)
  ∧ _password (bot_after r) = new_password
  ∧ authorized_users (bot_after r) = ∅.
Proof.
  intros r file_present removal_failed.
  unfold r. rewrite update_password_run. cbv zeta.
  pose proof (removed_attempts E w) as Hattempts.
  pose proof (removed_log E w) as Hlog.
  pose proof (removed_auth_file E w) as Hfile.
  pose proof (removed_frame E w) as (Henv & _ & _).
  fold file_present in Hattempts, Hlog. fold removal_failed in Hlog.
  destruct (refuses E SetKey) eqn:Hset;
    unfold outcome, bot_after, world_after; simpl;
    rewrite Hattempts, Hlog, Hfile, ?Henv, <- ?app_assoc, ?app_nil_r;
    (split_and!; [done | done | done | | done | done | done]);
    unfold removal_failed; intros [_ ->]%andb_true_iff; done.
Qed.

(** The claim fails where the removal of the backing file is refused:
    the file is there, [os.remove] fails, and [update_password] still
    returns normally, with the file in place. *)
Lemma update_password_remove_refused_returns :
  let E := refusing Remove in
  let r := update_password "s3cret" E (bot_with {[1; 2; 3]}, seeded_world) in
  is_Some (auth_file seeded_world)
  ∧ refuses E Remove = true
  ∧ ¬ (∃ e, outcome r = Raise e)
  ∧ outcome r = Ok ()
  ∧ auth_file (world_after r) = auth_file seeded_world.
Proof.
  vm_compute. split_and!; [by eexists | done | | done | done].
  intros [e He]. discriminate He.
Qed.

(** And where [set_key] is refused the call raises, but writes no log
    record. *)
Example update_password_set_key_refused_not_logged :
  let r := update_password "s3cret" (refusing SetKey)
             (bot_with {[1; 2; 3]}, seeded_world) in
  outcome r = Raise (OSError SetKey)
  ∧ log (world_after r) = log seeded_world
  ∧ _password (bot_after r) = "s3cret"%string
  ∧ authorized_users (bot_after r) = ∅.
Proof. vm_compute. done. Qed.

(** C10. [update_password] checks nothing about its argument.  For every
    string, the empty one included, the call returns normally (its only
    step that can raise is [set_key], here not refused), the string
    becomes the secret, is written to the .env file, and the recipient
    store is emptied.  The constructor, in contrast, raises [ValueError]
    for an empty password, whatever its other arguments. *)
Theorem update_password_accepts_any_secret (new_password : string)
    (E : environment) (b : NotificationBot) (w : world) :
  refuses E SetKey = false →
  let r := update_password new_password E (b, w) in
  outcome r = Ok ()
  ∧ _password (bot_after r) = new_password
  ∧ authorized_users (bot_after r) = ∅
  ∧ env_file (world_after r) !! "TELEGRAM_BOT_PASSWORD"%string
    = Some new_password
  ∧ (∀ token admin_chat_id E0 w0,
       ∃ msg,
         __init__ token "" admin_chat_id E0 w0 = (Raise (ValueError msg), w0)).
Proof.
  intros Hset r. unfold r. rewrite update_password_run, Hset. cbv zeta.
  unfold outcome, bot_after, world_after. simpl.
  split_and!; [done | done | done | by rewrite lookup_insert_eq |].
  intros token admin_chat_id E0 w0. unfold __init__.
  case_bool_decide; [by eexists |].
  rewrite bool_decide_eq_true_2 by done. by eexists.
Qed.

(** The secret is replaced by the empty string. *)
Lemma update_password_accepts_any_secret_witness :
  let r := update_password "" calm (bot_with {[2]}, fresh_world) in
  outcome r = Ok ()
  ∧ _password (bot_after r) = ""%string
  ∧ authorized_users (bot_after r) = ∅
  ∧ env_file (world_after r) !! "TELEGRAM_BOT_PASSWORD"%string = Some ""%string
  ∧ (∀ token admin_chat_id E0 w0,
       ∃ msg,
         __init__ token "" admin_chat_id E0 w0 = (Raise (ValueError msg), w0)).
Proof.
  apply (update_password_accepts_any_secret "" calm). reflexivity.
Defined.

(** ** Persistence: [_save_authorized_users] and [_load_authorized_users] *)

Section Persistence.
Context (E : environment).

(** Loading never raises and leaves the bot object alone. *)
Lemma load_never_raises (b : NotificationBot) (w : world) :
  ∃ users w', _load_authorized_users E (b, w) = (Ok users, (b, w')).
Proof.
  cbv [_load_authorized_users try_except mbind M_bind mret M_ret
       os_path_exists get_world open_read refused raise json_load logger
       set_world].
  simpl. destruct (auth_file w) as [content|] eqn:Hfile; simpl;
    [|by eexists _, _].
  destruct (refuses E OpenRead); simpl; [by eexists _, _ |].
  rewrite Hfile.
  destruct (Json.json_loads content); simpl; by eexists _, _.
Qed.

(** Loading a file that holds the JSON text of [l] gives the set of the
    members of [l]. *)
Lemma load_run_present (b : NotificationBot) (w : world) (l : list Z) :
  refuses E OpenRead = false →
  auth_file w = Some (Json.json_dumps l) →
  _load_authorized_users E (b, w)
  = (Ok (list_to_set l), (b, add_attempt OpenRead w)).
Proof.
  intros Hread Hfile.
  cbv [_load_authorized_users try_except mbind M_bind mret M_ret
       os_path_exists get_world open_read refused raise json_load logger
       set_world].
  simpl. rewrite Hfile. simpl. rewrite Hread. simpl. rewrite Hfile.
  by rewrite json_loads_dumps.
Qed.

(** The constructor, given a token and a password that are not empty,
    builds the bot around the store that [_load_authorized_users] reads. *)
Lemma init_run (token password : string) (admin_chat_id : Z) (w : world)
    (b0 : NotificationBot) (users : gset Z) (w' : world) :
  token ≠ ""%string → password ≠ ""%string →
  b0 = {| token := token; _password := password;
          admin_chat_id := admin_chat_id; authorized_users := ∅ |} →
  _load_authorized_users E (b0, w) = (Ok users, (b0, w')) →
  __init__ token password admin_chat_id E w
  = (Ok (set_authorized_users users b0), w').
Proof.
  intros Htoken Hpassword -> Hload. unfold __init__.
  rewrite !bool_decide_eq_false_2 by done. by rewrite Hload.
Qed.

End Persistence.

(** C7. Persistence round trip.  For every identity [i], after [add i]
    has written the store, what a reload reads from the backing file is
    the store with [i] in it: [_load_authorized_users] returns exactly the
    set that was saved, and so does the constructor of a restarted
    process.  The write and the later read are taken not to be refused by
    the file system. *)
Theorem add_then_reload (i : Z) (E1 E2 : environment) (b : NotificationBot)
    (w : world) :
  refuses E1 OpenWrite = false →
  refuses E2 OpenRead = false →
  let r1 := add i E1 (b, w) in
  let users := {[i]} ∪ authorized_users b in
  authorized_users (bot_after r1) = users
  ∧ i ∈ users
  ∧ outcome (_load_authorized_users E2 (bot_after r1, world_after r1))
    = Ok users
  ∧ (∀ token password admin_chat_id,
       token ≠ ""%string → password ≠ ""%string →
       ∃ b' w',
         __init__ token password admin_chat_id E2 (world_after r1)
         = (Ok b', w')
         ∧ authorized_users b' = users).
Proof.
  intros Hwrite Hread r1 users.
  assert (Hfile : auth_file (world_after r1)
                  = Some (Json.json_dumps (elements users))).
  { unfold r1. rewrite add_run. cbv zeta. unfold world_after. simpl.
    by rewrite saved_auth_file, Hwrite. }
  split_and!.
  - unfold r1. by rewrite add_run.
  - by apply elem_of_union_l, elem_of_singleton.
  - rewrite (load_run_present E2 _ _ (elements users)) by done.
    unfold outcome. simpl. by rewrite list_to_set_elements_L.
  - intros token password admin_chat_id Htoken Hpassword.
    eexists _, _. split.
    + eapply init_run; [done | done | reflexivity |].
      by apply (load_run_present E2 _ _ (elements users)).
    + simpl. by rewrite list_to_set_elements_L.
Qed.

(** Chat 42 is added to a store that holds chat 2; the process restarts. *)
Lemma add_then_reload_witness :
  let r1 := add 42 calm (bot_with {[2]}, fresh_world) in
  authorized_users (bot_after r1) = {[42; 2]}
  ∧ 42 ∈ ({[42; 2]} : gset Z)
  ∧ outcome (_load_authorized_users calm (bot_after r1, world_after r1))
    = Ok {[42; 2]}
  ∧ (∀ token password admin_chat_id,
       token ≠ ""%string → password ≠ ""%string →
       ∃ b' w',
         __init__ token password admin_chat_id calm (world_after r1)
         = (Ok b', w')
         ∧ authorized_users b' = {[42; 2]}).
Proof.
  exact (add_then_reload 42 calm calm (bot_with {[2]}) fresh_world
           eq_refl eq_refl).
Defined.

(** The same through the handler: the administrator is granted access,
    the process restarts, and the new bot has the administrator in its
    store. *)
Example verify_user_then_restart :
  let r := verify_user (text_from 2 "hunter2") calm
             (bot_with ∅, fresh_world) in
  auth_file (world_after r) = Some "[2]"%string
  ∧ (authorized_users <$>
       outcome_of_init (__init__ "T0K3N" "hunter2" 2 calm (world_after r)))
    = Some {[2]}.
Proof. vm_compute. done. Qed.

(** When the write is refused the grant stays in memory only: after a
    restart the store is what the file held before. *)
Example add_write_refused_then_restart :
  let r := add 42 (refusing OpenWrite) (bot_with {[2]}, fresh_world) in
  authorized_users (bot_after r) = {[42; 2]}
  ∧ outcome (_load_authorized_users calm (bot_after r, world_after r))
    = Ok ∅.
Proof. vm_compute. done. Qed.

(** ** More about the bot: loading, construction, sequences of calls *)

(** The run of [_load_authorized_users], case by case. *)
Lemma load_run_total (E : environment)
    (b : NotificationBot) (w : world) :
  ∃ (users : gset Z) (w' : world),
    _load_authorized_users E (b, w) = (Ok users, (b, w'))
    ∧ auth_file w' = auth_file w
    ∧ env_file w' = env_file w
    ∧ (auth_file w = None → users = ∅ ∧ w' = w)
    ∧ (is_Some (auth_file w) → refuses E OpenRead = true →
       users = ∅
       ∧ log w' = log w ++ [(ERROR, LoadUsersFailed (OSError OpenRead))]).
Proof.
  cbv [_load_authorized_users try_except mbind M_bind mret M_ret
       os_path_exists get_world open_read refused raise json_load logger
       set_world].
  simpl. destruct (auth_file w) as [content|] eqn:Hfile; simpl.
  - destruct (refuses E OpenRead) eqn:Hread; simpl.
    + eexists _, _. split; [reflexivity |]. simpl. by rewrite Hfile.
    + rewrite Hfile.
      destruct (Json.json_loads content); simpl;
        (eexists _, _; split; [reflexivity |]); simpl; by rewrite Hfile.
  - exists ∅, w. rewrite Hfile.
    split_and!; [done | done | done | done |]. by intros [? ?].
Qed.

(** [_load_authorized_users] never raises and changes neither the bot nor
    the files, whatever the backing file holds.  Without a backing file
    the store is empty and nothing is attempted or logged; when the file
    is there and cannot be opened the store is empty and the failure is
    logged as an error. *)
Theorem load_recovers_from_every_failure (E : environment)
    (b : NotificationBot) (w : world) :
  ∃ (users : gset Z) (w' : world),
    _load_authorized_users E (b, w) = (Ok users, (b, w'))
    ∧ auth_file w' = auth_file w
    ∧ env_file w' = env_file w
    ∧ (auth_file w = None → users = ∅ ∧ w' = w)
    ∧ (is_Some (auth_file w) → refuses E OpenRead = true →
       users = ∅
       ∧ log w' = log w ++ [(ERROR, LoadUsersFailed (OSError OpenRead))]).
Proof. exact (load_run_total E b w). Qed.

(** The three ways the constructor can go. *)
Lemma init_cases (tok password : string)
    (chat : Z) (E : environment) (w : world) :
  let r := __init__ tok password chat E w in
  (tok = ""%string → r = (Raise (ValueError "Неверный токен бота"), w))
  ∧ (tok ≠ ""%string → password = ""%string →
     r = (Raise (ValueError "Неверный пароль"), w))
  ∧ (tok ≠ ""%string → password ≠ ""%string →
     ∃ users w',
       r = (Ok {| token := tok; _password := password;
                  admin_chat_id := chat; authorized_users := users |}, w')
       ∧ auth_file w' = auth_file w
       ∧ env_file w' = env_file w).
Proof.
  intros r. unfold r, __init__. split_and!.
  - intros ->. by rewrite bool_decide_eq_true_2.
  - intros Htoken ->.
    rewrite bool_decide_eq_false_2 by done.
    by rewrite bool_decide_eq_true_2.
  - intros Htoken Hpassword.
    rewrite !bool_decide_eq_false_2 by done.
    set (b0 := {| token := tok; _password := password;
                  admin_chat_id := chat; authorized_users := ∅ |}).
    destruct (load_run_total E b0 w)
      as (users & w' & -> & Hfile & Henv & _).
    by exists users, w'.
Qed.


(** Over a file that holds chats 1, 2 and 3 the new bot has the three. *)
Example init_reads_the_seeded_file :
  match (__init__ "T0K3N" "hunter2" 2 calm seeded_world).1 with
  | Ok bot => elements (authorized_users bot) ≡ₚ [1; 2; 3]
  | Raise _ => False
  end.
Proof. vm_compute. symmetry. apply (Permutation_rev [1; 2; 3]). Qed.

Lemma start_run (update : Update) (E : environment) (b : NotificationBot)
    (w : world) :
  let w1 := replied (message_chat_id update) MSG_ENTER_PASSWORD w in
  start update E (b, w)
  = if refuses E ReplyText then (Raise TelegramError, (b, w1))
    else
      (Ok (),
       (b, add_log (INFO, StartReceived (message_chat_id update)) w1)).
Proof.
  unfold start, mbind, M_bind. rewrite reply_text_run.
  by destruct (refuses E ReplyText).
Qed.

(** What a broadcast leaves alone, as an equation on the whole run. *)
Lemma send_message_run_frame (message_text : string) (E : environment)
    (b : NotificationBot) (w : world) :
  ∃ (success : bool) (w' : world),
    send_message message_text E (b, w) = (Ok success, (b, w'))
    ∧ auth_file w' = auth_file w ∧ env_file w' = env_file w
    ∧ replies w' = replies w ∧ attempts w' = attempts w.
Proof.
  unfold send_message, mbind, M_bind, get_self. simpl.
  case_bool_decide.
  - by eexists _, _.
  - destruct (send_loop_run E message_text b
                (elements (authorized_users b)) false w)
      as (w' & -> & _ & Hfile & Henv & Hreplies & Hattempts).
    by eexists _, _.
Qed.

(** A broadcast sends, and logs what it sent; it changes nothing else:
    not the bot (store, secret), not the backing file, not the .env file,
    and it neither answers a chat nor attempts a file operation. *)
Theorem send_message_only_sends (message_text : string) (E : environment)
    (b : NotificationBot) (w : world) :
  let r := send_message message_text E (b, w) in
  bot_after r = b
  ∧ auth_file (world_after r) = auth_file w
  ∧ env_file (world_after r) = env_file w
  ∧ replies (world_after r) = replies w
  ∧ attempts (world_after r) = attempts w.
Proof.
  intros r. unfold r.
  destruct (send_message_run_frame message_text E b w)
    as (success & w' & -> & Hframe).
  by split.
Qed.

(** One call keeps the token and the administrator, and can add nobody
    but the administrator to the store. *)
Lemma after_call_keeps (c : call) (E : environment) (b : NotificationBot)
    (w : world) :
  let b' := (after_call c E (b, w)).1 in
  token b' = token b
  ∧ admin_chat_id b' = admin_chat_id b
  ∧ authorized_users b' ⊆ authorized_users b ∪ {[admin_chat_id b]}.
Proof.
  destruct c as [update|update|message_text|new_password]; simpl.
  - rewrite start_run. cbv zeta.
    destruct (refuses E ReplyText); simpl;
      (split_and!; [done | done | apply union_subseteq_l]).
  - destruct (decide (message_chat_id update = admin_chat_id b))
      as [Hadmin|Hother].
    + destruct (decide (message_text update = Some (_password b)))
        as [Htext|Htext].
      * rewrite verify_user_run_granted by done. cbv zeta.
        destruct (refuses E ReplyText); simpl;
          (split_and!; [done | done |]);
          by rewrite (comm_L (∪)).
      * rewrite verify_user_run_invalid by done. cbv zeta.
        destruct (refuses E ReplyText); simpl;
          (split_and!; [done | done | apply union_subseteq_l]).
    + rewrite verify_user_run_denied by done.
      simpl. split_and!; [done | done | apply union_subseteq_l].
  - destruct (send_message_run_frame message_text E b w)
      as (success & w' & -> & _).
    simpl. split_and!; [done | done | apply union_subseteq_l].
  - rewrite update_password_run. cbv zeta.
    destruct (refuses E SetKey); simpl;
      (split_and!; [done | done | apply empty_subseteq]).
Qed.

(** Whatever updates and calls reach the bot, in whatever order and under
    whatever environments, its token and its administrator stay what they
    were at construction, and every recipient in the store was either
    there at the beginning or is the administrator: no other chat can
    ever be authorized. *)
Theorem only_the_admin_is_ever_added (cs : list (environment * call))
    (b : NotificationBot) (w : world) :
  let b' := (after_calls cs (b, w)).1 in
  token b' = token b
  ∧ admin_chat_id b' = admin_chat_id b
  ∧ authorized_users b' ⊆ authorized_users b ∪ {[admin_chat_id b]}.
Proof.
  revert b w. induction cs as [|[E c] rest IH]; intros b w.
  - simpl. split_and!; [done | done | apply union_subseteq_l].
  - simpl after_calls.
    pose proof (after_call_keeps c E b w) as (Htoken & Hadmin & Hstore).
    destruct (after_call c E (b, w)) as [b1 w1]. simpl in *.
    destruct (IH b1 w1) as (Htoken' & Hadmin' & Hstore').
    cbv zeta. split_and!.
    + by rewrite Htoken'.
    + by rewrite Hadmin'.
    + rewrite Hadmin in Hstore'.
      intros x Hx. apply Hstore' in Hx.
      apply elem_of_union in Hx as [Hx|Hx].
      * by apply Hstore.
      * by apply elem_of_union_r.
Qed.

(** Chat 9 tries everything; the administrator (chat 2) logs in once. *)
Example only_the_admin_is_ever_added_run :
  authorized_users
    (after_calls
       [(calm, Start (text_from 9 "/start"));
        (calm, VerifyUser (text_from 9 "hunter2"));
        (calm, VerifyUser (text_from 2 "hunter2"));
        (calm, SendMessage "hello");
        (calm, VerifyUser (text_from 9 "hunter2"))]
       (bot_with {[7]}, fresh_world)).1
  = {[2; 7]}.
Proof. apply (bool_decide_unpack _). vm_compute. exact I. Qed.

(** After a password rotation a broadcast reaches nobody: [send_message]
    returns [False] and makes no call of [requests.post], whatever the
    store held before and whether or not the rotation itself raised. *)
Theorem send_after_rotation_reaches_nobody (new_password : string)
    (message_text : string) (E1 E2 : environment) (b : NotificationBot)
    (w : world) :
  let st1 := (update_password new_password E1 (b, w)).2 in
  let r := send_message message_text E2 st1 in
  outcome r = Ok false
  ∧ posts (world_after r) = posts w.
Proof.
  intros st1 r. unfold r, st1.
  rewrite update_password_run. cbv zeta.
  pose proof (removed_frame E1 w) as (_ & _ & Hposts).
  destruct (refuses E1 SetKey); simpl;
    unfold send_message, mbind, M_bind, get_self; simpl;
    rewrite bool_decide_eq_true_2 by done; simpl; by rewrite Hposts.
Qed.

(** From an empty store, once the administrator has sent the secret, a
    broadcast makes exactly one call of [requests.post]: to the
    sendMessage address of the bot's token, with the administrator's chat
    id and the message text in its body and a timeout of 5 seconds; and it
    returns [True] exactly when that call is delivered. *)
Theorem grant_then_send_posts_once (message_text : string)
    (E1 E2 : environment) (b : NotificationBot) (w : world) :
  authorized_users b = ∅ →
  let st1 := (verify_user (text_from (admin_chat_id b) (_password b)) E1
                (b, w)).2 in
  let r := send_message message_text E2 st1 in
  let req :=
    {| url := "https://api.telegram.org/bot" +:+ token b +:+ "/sendMessage";
       json_chat_id := admin_chat_id b;
       json_text := message_text;
       timeout := 5 |} in
  let out := http_post E2 (posts w) req in
  outcome r = Ok (delivered out)
  ∧ posts (world_after r) = posts w ++ [(req, out)].
Proof.
  intros Hempty st1 r req out. unfold r, st1.
  rewrite verify_user_run_granted by done. cbv zeta.
  rewrite Hempty, (right_id_L ∅ (∪)).
  assert (Hposts : posts (saved E1 {[admin_chat_id b]} w) = posts w)
    by (unfold saved; by destruct (refuses E1 OpenWrite)).
  destruct (refuses E1 ReplyText); simpl;
    unfold send_message, mbind, M_bind, get_self; simpl;
    rewrite bool_decide_eq_false_2
      by (apply non_empty_singleton_L);
    rewrite elements_singleton; simpl;
    unfold mbind, M_bind; rewrite send_one_run; simpl;
    rewrite Hposts; done.
Qed.

Lemma grant_then_send_posts_once_witness :
  let r := send_message "hello" calm
             (verify_user (text_from 2 "hunter2") calm
                (bot_with ∅, fresh_world)).2 in
  outcome r = Ok true
  ∧ posts (world_after r)
    = [({| url := "https://api.telegram.org/botT0K3N/sendMessage";
           json_chat_id := 2; json_text := "hello"; timeout := 5 |},
        Responded {| status_code := 200; text := "ok" |})].
Proof.
  exact (grant_then_send_posts_once "hello" calm calm (bot_with ∅)
           fresh_world eq_refl).
Defined.

(** ** Rotation and restart *)

(** When the removal of the backing file is not refused, the rotation
    survives a restart: whatever the file held and whatever the later
    environment does, a bot constructed afterwards starts with an empty
    store. *)
Theorem rotation_survives_restart (new_password tok password : string)
    (chat : Z) (E1 E2 : environment) (b : NotificationBot) (w : world) :
  refuses E1 Remove = false →
  tok ≠ ""%string → password ≠ ""%string →
  let w1 := world_after (update_password new_password E1 (b, w)) in
  ∃ b' w',
    __init__ tok password chat E2 w1 = (Ok b', w')
    ∧ authorized_users b' = ∅.
Proof.
  intros Hremove Htok Hpassword w1.
  assert (Hfile : auth_file w1 = None).
  { unfold w1. rewrite update_password_run. cbv zeta.
    destruct (refuses E1 SetKey); unfold world_after; simpl;
      by rewrite removed_auth_file, Hremove. }
  set (b0 := {| token := tok; _password := password; admin_chat_id := chat;
                authorized_users := ∅ |}).
  destruct (load_run_total E2 b0 w1)
    as (users & w' & Hload & _ & _ & Hmissing & _).
  destruct (Hmissing Hfile) as [-> ->].
  eexists _, _. split; [by eapply init_run |]. done.
Qed.

Lemma rotation_survives_restart_witness :
  ∃ b' w',
    __init__ "T0K3N" "s3cret" 2 calm
      (world_after
         (update_password "s3cret" calm (bot_with {[1; 2; 3]}, seeded_world)))
    = (Ok b', w')
    ∧ authorized_users b' = ∅.
Proof.
  apply (rotation_survives_restart "s3cret" "T0K3N" "s3cret" 2 calm calm
           (bot_with {[1; 2; 3]}) seeded_world); done.
Defined.

(** When the removal is refused, the rotation does not survive a
    restart: the failure was only logged, the file still holds the old
    recipients, and a bot constructed afterwards (the file being readable)
    has all of them in its store again. *)
Theorem refused_removal_restores_recipients (new_password tok password : string)
    (chat : Z) (E1 E2 : environment) (b : NotificationBot) (w : world)
    (recipients : list Z) :
  auth_file w = Some (Json.json_dumps recipients) →
  refuses E1 Remove = true →
  refuses E2 OpenRead = false →
  tok ≠ ""%string → password ≠ ""%string →
  let r := update_password new_password E1 (b, w) in
  authorized_users (bot_after r) = ∅
  ∧ ∃ b' w',
      __init__ tok password chat E2 (world_after r) = (Ok b', w')
      ∧ authorized_users b' = list_to_set recipients.
Proof.
  intros Hfile Hremove Hread Htok Hpassword r.
  assert (Hr : authorized_users (bot_after r) = ∅
               ∧ auth_file (world_after r)
                 = Some (Json.json_dumps recipients)).
  { unfold r. rewrite update_password_run. cbv zeta.
    destruct (refuses E1 SetKey); unfold bot_after, world_after; simpl;
      by rewrite removed_auth_file, Hremove. }
  destruct Hr as [Hstore Hfile'].
  split; [done |].
  eexists _, _. split.
  - eapply init_run; [done | done | reflexivity |].
    by apply (load_run_present E2 _ _ recipients).
  - done.
Qed.

Lemma refused_removal_restores_recipients_witness :
  let r := update_password "s3cret" (refusing Remove)
             (bot_with {[1; 2; 3]}, seeded_world) in
  authorized_users (bot_after r) = ∅
  ∧ ∃ b' w',
      __init__ "T0K3N" "s3cret" 2 calm (world_after r) = (Ok b', w')
      ∧ authorized_users b' = list_to_set [1; 2; 3].
Proof.
  apply (refused_removal_restores_recipients "s3cret" "T0K3N" "s3cret" 2
           (refusing Remove) calm (bot_with {[1; 2; 3]}) seeded_world
           [1; 2; 3]); done.
Defined.

(** ** The route [/admin/update_password] *)

(** Without the right [Authorization] header the route answers 401 and
    nothing happens: the bot and the world are what they were, whatever
    the body of the request. *)
Theorem update_bot_password_needs_the_key (key : string)
    (auth_header : option string) (json : option (gmap string string))
    (E : environment) (b : NotificationBot) (w : world) :
  auth_header ≠ Some key →
  update_bot_password key auth_header json E (b, w)
  = (Ok Unauthorized, (b, w)).
Proof.
  intros Hkey. unfold update_bot_password.
  by rewrite bool_decide_eq_true_2.
Qed.

Lemma update_bot_password_needs_the_key_witness :
  update_bot_password "k3y" (Some "guess")
    (Some {["new_password"%string := "mine"%string]}) calm
    (bot_with {[2]}, seeded_world)
  = (Ok Unauthorized, (bot_with {[2]}, seeded_world))
  ∧ update_bot_password "k3y" None
      (Some {["new_password"%string := "mine"%string]}) calm
      (bot_with {[2]}, seeded_world)
    = (Ok Unauthorized, (bot_with {[2]}, seeded_world)).
Proof.
  split; apply update_bot_password_needs_the_key; done.
Defined.

(** With the right header, a request whose JSON body is [null], the
    empty object, or an object without the key [new_password] is answered
    400 and changes nothing. *)
Theorem update_bot_password_needs_new_password (key : string)
    (json : option (gmap string string)) (E : environment)
    (b : NotificationBot) (w : world) :
  (json ≫= (.!! "new_password"%string)) = None →
  update_bot_password key (Some key) json E (b, w)
  = (Ok InvalidData, (b, w)).
Proof.
  intros Hmissing. unfold update_bot_password.
  rewrite bool_decide_eq_false_2 by (intros Hne; by apply Hne).
  destruct json as [body|]; [|done]. simpl in Hmissing.
  case_bool_decide; [done |]. by rewrite Hmissing.
Qed.

Lemma update_bot_password_needs_new_password_witness :
  update_bot_password "k3y" (Some "k3y")
    (Some {["password"%string := "mine"%string]}) calm
    (bot_with {[2]}, seeded_world)
  = (Ok InvalidData, (bot_with {[2]}, seeded_world)).
Proof.
  apply update_bot_password_needs_new_password. done.
Defined.

(** With the right header and a [new_password], the route never raises.
    It answers 200, or 500 exactly when [set_key] was refused; in both
    cases the secret has been replaced and the store emptied, so after a
    500 the old secret is already void. *)
Theorem update_bot_password_rotates_even_on_500 (key new_password : string)
    (body : gmap string string) (E : environment) (b : NotificationBot)
    (w : world) :
  body !! "new_password"%string = Some new_password →
  let r := update_bot_password key (Some key) (Some body) E (b, w) in
  outcome r
  = Ok (if refuses E SetKey then ServerError (OSError SetKey)
        else PasswordChanged)
  ∧ _password (bot_after r) = new_password
  ∧ authorized_users (bot_after r) = ∅.
Proof.
  intros Hbody r. unfold r, update_bot_password.
  rewrite bool_decide_eq_false_2 by (intros Hne; by apply Hne).
  rewrite bool_decide_eq_false_2
    by (intros ->; by rewrite lookup_empty in Hbody).
  rewrite Hbody. unfold try_except, mbind, M_bind.
  rewrite update_password_run. cbv zeta.
  by destruct (refuses E SetKey).
Qed.

Lemma update_bot_password_rotates_even_on_500_witness :
  let r := update_bot_password "k3y" (Some "k3y")
             (Some {["new_password"%string := "s3cret"%string]})
             (refusing SetKey) (bot_with {[1; 2; 3]}, seeded_world) in
  outcome r = Ok (ServerError (OSError SetKey))
  ∧ _password (bot_after r) = "s3cret"%string
  ∧ authorized_users (bot_after r) = ∅.
Proof.
  apply (update_bot_password_rotates_even_on_500 "k3y" "s3cret"
           {["new_password"%string := "s3cret"%string]} (refusing SetKey)
           (bot_with {[1; 2; 3]}) seeded_world).
  done.
Defined.

(** ** The form helpers: phone numbers and form validation *)

Section FormFacts.
Context (isdigit : Z → bool) (lower : list Z → list Z).

Lemma Forall_filter_same (l : list Z) :
  Forall (λ c, isdigit c) l → filter (λ c, isdigit c) l = l.
Proof.
  induction 1 as [|c l Hc Hl IH]; [done |].
  rewrite filter_cons_True by done. by rewrite IH.
Qed.

Lemma filter_all_digits (l : list Z) :
  Forall (λ c, isdigit c) (filter (λ c, isdigit c) l).
Proof.
  apply Forall_forall. intros c Hc.
  by apply list_elem_of_filter in Hc as [Hc _].
Qed.

(** Length and content of a cleaned phone. *)
Lemma validate_phone_shape (phone : list Z) :
  let digits := filter (λ c, isdigit c) phone in
  (length (validate_phone isdigit phone) ≤ 10)%nat
  ∧ length (validate_phone isdigit phone) = (length digits `min` 10)%nat
  ∧ Forall (λ c, isdigit c) (validate_phone isdigit phone)
  ∧ validate_phone isdigit phone `suffix_of` digits.
Proof.
  intros digits. unfold validate_phone. fold digits.
  split_and!.
  - rewrite length_drop. lia.
  - rewrite length_drop. lia.
  - apply Forall_drop, filter_all_digits.
  - apply suffix_drop.
Qed.

(** [validate_phone] returns at most ten characters, all of them digits:
    the last ten digits of its argument, in their order. *)
Theorem validate_phone_last_ten_digits (phone : list Z) :
  let digits := filter (λ c, isdigit c) phone in
  (length (validate_phone isdigit phone) ≤ 10)%nat
  ∧ length (validate_phone isdigit phone) = (length digits `min` 10)%nat
  ∧ Forall (λ c, isdigit c) (validate_phone isdigit phone)
  ∧ validate_phone isdigit phone `suffix_of` digits.
Proof. exact (validate_phone_shape phone). Qed.

(** A string of at most ten digits is left as it is. *)
Lemma validate_phone_fixed (phone : list Z) :
  Forall (λ c, isdigit c) phone → (length phone ≤ 10)%nat →
  validate_phone isdigit phone = phone.
Proof.
  intros Hdigits Hlen. unfold validate_phone.
  rewrite Forall_filter_same by done.
  replace (length phone - 10)%nat with 0%nat by lia. apply drop_0.
Qed.

(** The strings [validate_phone] leaves as they are are exactly the
    strings of at most ten digits; so cleaning a cleaned number changes
    nothing. *)
Theorem validate_phone_fixed_points (phone : list Z) :
  (validate_phone isdigit phone = phone
   ↔ Forall (λ c, isdigit c) phone ∧ (length phone ≤ 10)%nat)
  ∧ validate_phone isdigit (validate_phone isdigit phone)
    = validate_phone isdigit phone.
Proof.
  destruct (validate_phone_shape phone) as (Hlen & _ & Hdigits & _).
  split; [split |].
  - intros Heq. by rewrite Heq in Hlen, Hdigits.
  - intros [Hd Hl]. by apply validate_phone_fixed.
  - by apply validate_phone_fixed.
Qed.

(** A ten-digit number survives formatting: what [format_phone] prints,
    18 characters, contains the country code 7 and the ten digits, and
    [validate_phone] gets the number back from it.  The digits and the
    punctuation of the format are classified by [str.isdigit] as they are
    in ASCII. *)
Theorem validate_phone_format_phone (phone : list Z) :
  isdigit 55 = true →
  Forall (λ c, isdigit c = false) [43; 32; 40; 41; 45] →
  length phone = 10%nat →
  Forall (λ c, isdigit c) phone →
  length (format_phone phone) = 18%nat
  ∧ validate_phone isdigit (format_phone phone) = phone.
Proof.
  intros H7 Hpunct Hlen Hdigits.
  destruct phone as [|d0 [|d1 [|d2 [|d3 [|d4 [|d5 [|d6 [|d7 [|d8 [|d9
                    [|d10 rest]]]]]]]]]]]; try done.
  split; [reflexivity |].
  repeat match goal with
         | H : Forall _ (_ :: _) |- _ =>
             apply Forall_cons in H; destruct H as [? H]
         end.
  unfold validate_phone, format_phone. simpl.
  repeat first
    [ rewrite filter_cons_True by first [done | by apply Is_true_true_2]
    | rewrite filter_cons_False by (rewrite Is_true_false; done) ].
  rewrite filter_nil. reflexivity.
Qed.

End FormFacts.

(** The number 9123456780, as the characters "9123456780". *)
Lemma validate_phone_format_phone_witness :
  format_phone [57; 49; 50; 51; 52; 53; 54; 55; 56; 48]
  = [43; 55; 32; 40; 57; 49; 50; 41; 32; 51; 52; 53; 45; 54; 55; 45;
     56; 48]
  ∧ validate_phone ascii_isdigit
      (format_phone [57; 49; 50; 51; 52; 53; 54; 55; 56; 48])
    = [57; 49; 50; 51; 52; 53; 54; 55; 56; 48].
Proof.
  split; [reflexivity |].
  refine (proj2 (validate_phone_format_phone ascii_isdigit
                   [57; 49; 50; 51; 52; 53; 54; 55; 56; 48] _ _ _ _));
    [reflexivity | | reflexivity |];
    repeat constructor.
Defined.

Section ValidationFacts.
Context (isdigit : Z → bool) (lower : list Z → list Z).

(** When the list of errors is empty. *)
Lemma validate_form_data_nil_iff (data : form_data) :
  validate_form_data lower data = []
  ↔ length (phone data) = 10%nat
    ∧ (2 ≤ length (firstname data))%nat
    ∧ lower (firstname data) ∉ FAKE_NAMES.
Proof.
  unfold validate_form_data.
  repeat case_bool_decide; simpl;
    (split; [intros Hnil | intros (Hten & Htwo & Hreal)]);
    try discriminate Hnil; try done;
    try (split_and!; [lia | lia | done]);
    repeat match goal with
           | H : firstname data = [] |- _ => rewrite H in *; clear H
           | H : phone data = [] |- _ => rewrite H in *; clear H
           end;
    simpl in *; lia.
Qed.

(** [validate_form_data] reports no error exactly when the phone has ten
    characters, the first name has at least two, and the lower-cased
    first name is not one of the two refused names. *)
Theorem validate_form_data_accepts_iff (data : form_data) :
  validate_form_data lower data = []
  ↔ length (phone data) = 10%nat
    ∧ (2 ≤ length (firstname data))%nat
    ∧ lower (firstname data) ∉ FAKE_NAMES.
Proof. exact (validate_form_data_nil_iff data). Qed.

(** The checks on the quality of the first name are reached only with a
    ten-character phone: when the phone is missing or has another length,
    the errors are the phone's (after "name required" if the first name
    is empty), and a first name that is too short or refused goes
    unreported. *)
Theorem validate_form_data_phone_first (data : form_data) :
  length (phone data) ≠ 10%nat →
  (validate_form_data lower data
   = (if bool_decide (firstname data = [])
      then [ERROR_MESSAGES invalid_name] else [])
     ++ [ERROR_MESSAGES
           (if bool_decide (phone data = []) then invalid_phone
            else phone_length)])
  ∧ (ERROR_MESSAGES name_too_short ∉ validate_form_data lower data)
  ∧ (ERROR_MESSAGES fake_name ∉ validate_form_data lower data).
Proof.
  intros Hlen. unfold validate_form_data.
  destruct (firstname data) as [|c1 name];
    destruct (phone data) as [|p1 number]; simpl in *;
    repeat case_bool_decide; try done; simpl;
    (split; [reflexivity |]); split;
    intros Hin; repeat (apply elem_of_cons in Hin as [Hin|Hin]; [done |]);
    by apply not_elem_of_nil in Hin.
Qed.

(** In [submit_feedback] the phone that is validated is the output of
    [validate_phone].  A form that passes then carries a phone of exactly
    ten digits: it is what [submit_order] would accept too, and
    [validate_phone] leaves it as it is. *)
Theorem accepted_form_has_ten_digit_phone (first last patr raw msg : list Z) :
  let data := {| firstname := first; lastname := last; patronymic := patr;
                 phone := validate_phone isdigit raw; message := msg |} in
  validate_form_data lower data = [] →
  length (phone data) = 10%nat
  ∧ Forall (λ c, isdigit c) (phone data)
  ∧ order_phone_ok isdigit (phone data) = true
  ∧ validate_phone isdigit (phone data) = phone data.
Proof.
  intros data Hok.
  apply validate_form_data_nil_iff in Hok as (Hlen & _ & _).
  simpl in *.
  destruct (validate_phone_shape isdigit raw)
    as (_ & _ & Hdigits & _).
  split_and!; [done | done | |].
  - unfold order_phone_ok.
    rewrite bool_decide_eq_true_2 by done.
    rewrite bool_decide_eq_true_2
      by (intros Hnil; by rewrite Hnil in Hlen).
    simpl. apply forallb_forall. intros c Hc.
    apply list_elem_of_In in Hc. apply Is_true_true_1.
    by apply (proj1 (Forall_forall _ _) Hdigits).
  - apply validate_phone_fixed; [done | lia].
Qed.

End ValidationFacts.

(** A one-letter first name with a three-digit phone: only the phone is
    reported. *)
Lemma validate_form_data_phone_first_witness :
  validate_form_data (λ s, s)
    {| firstname := [1090]; lastname := []; patronymic := [];
       phone := [57; 49; 50]; message := [] |}
  = [ERROR_MESSAGES phone_length].
Proof.
  refine (proj1 (validate_form_data_phone_first (λ s, s)
                   {| firstname := [1090]; lastname := []; patronymic := [];
                      phone := [57; 49; 50]; message := [] |} _)).
  simpl. lia.
Defined.

(** "Анна" with the phone typed as "+7 (912) 345-67-80". *)
Lemma accepted_form_has_ten_digit_phone_witness :
  let raw := [43; 55; 32; 40; 57; 49; 50; 41; 32; 51; 52; 53; 45; 54; 55;
              45; 56; 48] in
  validate_phone ascii_isdigit raw
  = [57; 49; 50; 51; 52; 53; 54; 55; 56; 48]
  ∧ order_phone_ok ascii_isdigit (validate_phone ascii_isdigit raw) = true.
Proof.
  intros raw. split; [reflexivity |].
  refine (proj1 (proj2 (proj2
    (accepted_form_has_ten_digit_phone ascii_isdigit (λ s, s)
       [1040; 1085; 1085; 1072] [] [] raw [] _)))).
  reflexivity.
Defined.

(** ** Settings and start *)

Section SettingsFacts.
Context (str_lower : string → string) (py_int : string → option Z)
        (token_hex_16 : string).

(** The first problem decides how [Config] fails: a missing variable is
    reported by a [RuntimeError] with its name, in the order token, chat
    id, password; a chat id that [int] refuses raises [ValueError], also
    when the password is missing as well. *)
Theorem load_Config_reports_first_problem (environ : gmap string string) :
  let load := load_Config str_lower py_int token_hex_16 environ in
  let bot_token := environ !! "TELEGRAM_BOT_TOKEN"%string in
  let chat := environ !! "TELEGRAM_CHAT_ID"%string in
  let password := environ !! "TELEGRAM_BOT_PASSWORD"%string in
  (bot_token = None → load = inl (RuntimeError "TELEGRAM_BOT_TOKEN"))
  ∧ (is_Some bot_token → chat = None →
     load = inl (RuntimeError "TELEGRAM_CHAT_ID"))
  ∧ (is_Some bot_token →
     ∀ literal, chat = Some literal → py_int literal = None →
                load = inl (IntValueError literal))
  ∧ (is_Some bot_token →
     ∀ literal, chat = Some literal → is_Some (py_int literal) →
                password = None →
                load = inl (RuntimeError "TELEGRAM_BOT_PASSWORD")).
Proof.
  intros load bot_token chat password.
  unfold load, load_Config, environ_get. fold bot_token chat password.
  split_and!.
  - by intros ->.
  - by intros [? ->] ->.
  - by intros [? ->] literal -> ->.
  - by intros [? ->] literal -> [? ->] ->.
Qed.

(** Whatever the environment holds for [SECRET_KEY], also nothing or the
    empty string, the key of the admin route is not empty (the random
    key [secrets.token_hex(16)] is not), a non-empty key of the
    environment is used as it is, and an empty [Authorization] header
    never opens the route. *)
Theorem secret_key_is_never_empty (environ : gmap string string)
    (config : Config) :
  token_hex_16 ≠ ""%string →
  load_Config str_lower py_int token_hex_16 environ = inr config →
  SECRET_KEY config ≠ ""%string
  ∧ (∀ k, environ !! "SECRET_KEY"%string = Some k → k ≠ ""%string →
          SECRET_KEY config = k)
  ∧ (∀ json E b w,
       update_bot_password (SECRET_KEY config) (Some ""%string) json E (b, w)
       = (Ok Unauthorized, (b, w))).
Proof.
  intros Hrandom Hload.
  assert (Hkey : SECRET_KEY config
                 = match environ !! "SECRET_KEY"%string with
                   | Some k => if bool_decide (k = ""%string)
                               then token_hex_16 else k
                   | None => token_hex_16
                   end).
  { unfold load_Config, environ_get in Hload.
    destruct (environ !! "TELEGRAM_BOT_TOKEN"%string); [|done].
    destruct (environ !! "TELEGRAM_CHAT_ID"%string) as [chat|]; [|done].
    destruct (py_int chat); [|done].
    destruct (environ !! "TELEGRAM_BOT_PASSWORD"%string); [|done].
    by injection Hload as <-. }
  assert (Hne : SECRET_KEY config ≠ ""%string).
  { rewrite Hkey. destruct (environ !! "SECRET_KEY"%string) as [k|];
      [case_bool_decide |]; done. }
  split_and!; [done | |].
  - intros k Hk Hnonempty. rewrite Hkey, Hk.
    by rewrite bool_decide_eq_false_2.
  - intros json E b w. unfold update_bot_password.
    rewrite bool_decide_eq_true_2; [done |].
    intros [= Heq]. by apply Hne.
Qed.

(** The server starts, that is [Config] loads and the bot is constructed,
    exactly when the three Telegram variables are set, the token and the
    password are not empty, and the chat id is accepted by [int].  The
    bot then carries these three values. *)
Theorem startup_succeeds_iff (environ : gmap string string)
    (E : environment) (w : world) :
  let run := startup str_lower py_int token_hex_16 environ E w in
  (∀ config bot w',
     run = (inr (config, bot), w') →
     environ !! "TELEGRAM_BOT_TOKEN"%string = Some (token bot)
     ∧ environ !! "TELEGRAM_BOT_PASSWORD"%string = Some (_password bot)
     ∧ (∃ literal, environ !! "TELEGRAM_CHAT_ID"%string = Some literal
                   ∧ py_int literal = Some (admin_chat_id bot))
     ∧ token bot ≠ ""%string ∧ _password bot ≠ ""%string)
  ∧ (∀ tok literal chat_id password,
       environ !! "TELEGRAM_BOT_TOKEN"%string = Some tok →
       environ !! "TELEGRAM_CHAT_ID"%string = Some literal →
       py_int literal = Some chat_id →
       environ !! "TELEGRAM_BOT_PASSWORD"%string = Some password →
       tok ≠ ""%string → password ≠ ""%string →
       ∃ config bot w',
         run = (inr (config, bot), w')
         ∧ token bot = tok ∧ admin_chat_id bot = chat_id
         ∧ _password bot = password).
Proof.
  intros run. unfold run, startup, load_Config, environ_get. split.
  - intros config bot w'.
    destruct (environ !! "TELEGRAM_BOT_TOKEN"%string) as [tok|]; [|done].
    destruct (environ !! "TELEGRAM_CHAT_ID"%string) as [literal|]; [|done].
    destruct (py_int literal) as [chat_id|] eqn:Hint; [|done].
    destruct (environ !! "TELEGRAM_BOT_PASSWORD"%string) as [password|];
      [|done].
    simpl.
    pose proof (init_cases tok password chat_id E w) as (Htok & Hpassword & Hok).
    cbv zeta in *.
    destruct (decide (tok = ""%string)) as [Hempty|Hfull];
      [by rewrite (Htok Hempty) |].
    destruct (decide (password = ""%string)) as [Hempty'|Hfull'];
      [by rewrite (Hpassword Hfull Hempty') |].
    destruct (Hok Hfull Hfull') as (users & w1 & -> & _).
    intros [= <- <- <-]. simpl. split_and!; [done | done | | done | done].
    by exists literal.
  - intros tok literal chat_id password -> -> -> -> Htok Hpassword. simpl.
    destruct (init_cases tok password chat_id E w)
      as (_ & _ & Hok).
    destruct (Hok Htok Hpassword) as (users & w1 & -> & _).
    by eexists _, _, _.
Qed.

End SettingsFacts.

Lemma secret_key_is_never_empty_witness :
  ∃ config,
    load_Config (λ s, s) decimal_int "9f86d081884c7d659a2feaa0c55ad015"
      (<["SECRET_KEY"%string := ""%string]> sample_environ)
    = inr config
    ∧ SECRET_KEY config = "9f86d081884c7d659a2feaa0c55ad015"%string
    ∧ SECRET_KEY config ≠ ""%string.
Proof.
  eexists. split; [reflexivity |]. split; [reflexivity |].
  refine (proj1 (secret_key_is_never_empty (λ s, s) decimal_int
                   "9f86d081884c7d659a2feaa0c55ad015"
                   (<["SECRET_KEY"%string := ""%string]> sample_environ)
                   _ _ _)); [done | reflexivity].
Defined.

Example startup_with_sample_environ :
  match (startup (λ s, s) decimal_int "9f86d081884c7d659a2feaa0c55ad015"
           sample_environ calm seeded_world).1 with
  | inr (config, bot) =>
      token bot = "T0K3N"%string ∧ admin_chat_id bot = 2
      ∧ _password bot = "hunter2"%string
      ∧ elements (authorized_users bot) ≡ₚ [1; 2; 3]
      ∧ REQUEST_LIMIT config = 3 ∧ REQUEST_WINDOW config = 60
  | inl _ => False
  end.
Proof.
  vm_compute. split_and!; try reflexivity.
  symmetry. apply (Permutation_rev [1; 2; 3]).
Qed.

Example startup_with_empty_password :
  startup (λ s, s) decimal_int "9f86d081884c7d659a2feaa0c55ad015"
    (<["TELEGRAM_BOT_PASSWORD"%string := ""%string]> sample_environ)
    calm seeded_world
  = (inl (BotFailed (ValueError "Неверный пароль")), seeded_world).
Proof. reflexivity. Qed.
